(** * shoemaker.py: a writer for the "pairs" file format

    A shallow embedding of [src/shoemaker.py] (classes [PairsHeader] and
    [PairsLine]) and the properties of it that the specification states.

    Conventions of the embedding:
    - a Python [str] is the [string] of its UTF-8 bytes, which keeps equality
      and the order of code points; [<], [>] and [list.sort] on strings are
      the lexicographic order [String.compare];
    - a [dict] is an association list in insertion order with unique keys;
    - a failed [assert] raises [AssertionError]; reading an attribute that was
      never assigned raises [AttributeError];
    - a method is a computation in a state-and-exception monad whose state (the
      object, or the sink written to) survives a raised exception. *)

From Stdlib Require Import String Ascii ZArith List ListDec Bool Lia.
From Stdlib Require Import Sorted Permutation OrdersEx DecimalString RelationClasses.
Import ListNotations.

Local Open Scope string_scope.
Local Open Scope list_scope.

(* ===================================================================== *)
(** ** Python values and builtins used by the program *)
(* ===================================================================== *)

Module Py.

(** The exceptions the program can raise. *)
Inductive exn : Type :=
| AssertionError
| AttributeError
| KeyError.

Inductive result (A : Type) : Type :=
| Ok (a : A)
| Raise (e : exn).
Arguments Ok {A} a.
Arguments Raise {A} e.

(** [tab] and [nl] are the characters written as backslash-t and backslash-n
    in the Python source. *)
Definition tab : string := String (ascii_of_nat 9) EmptyString.
Definition nl : string := String (ascii_of_nat 10) EmptyString.

(** [a < b] and [a > b] on [str]. *)
Definition str_lt (a b : string) : bool := (a <? b)%string.
Definition str_gt (a b : string) : bool := (b <? a)%string.

(** [a <= b] on [str], as a proposition: [b] is not smaller than [a]. *)
Definition str_le (a b : string) : Prop := str_lt b a = false.

(** Truth value of a [str] used as a condition: non-empty. *)
Definition str_truthy (s : string) : bool := negb (s =? "")%string.

(** [x in l] for a list of [str]. *)
Fixpoint contains (x : string) (l : list string) : bool :=
  match l with
  | [] => false
  | y :: l' => (x =? y)%string || contains x l'
  end.

(** [sep.join(l)]. *)
Definition join (sep : string) (l : list string) : string := String.concat sep l.

(** [l.sort()] on a list of [str]: a stable sort that compares with [<]
    only.  [insort x l] puts [x] in front of the first element that is not
    smaller than [x]. *)
Fixpoint insort (x : string) (l : list string) : list string :=
  match l with
  | [] => [x]
  | y :: l' => if str_lt y x then y :: insort x l' else x :: l
  end.

Fixpoint list_sort (l : list string) : list string :=
  match l with
  | [] => []
  | x :: l' => insort x (list_sort l')
  end.

(** A [dict] from [str] to [str], in insertion order. *)
Definition dict : Type := list (string * string).

Definition keys (d : dict) : list string := map fst d.

Fixpoint lookup (k : string) (d : dict) : option string :=
  match d with
  | [] => None
  | (k', v') :: d' => if (k =? k')%string then Some v' else lookup k d'
  end.

(** [d.update({k: v})]: an existing key keeps its place and gets the new
    value, a new key goes last. *)
Fixpoint update (k v : string) (d : dict) : dict :=
  match d with
  | [] => [(k, v)]
  | (k', v') :: d' =>
      if (k =? k')%string then (k', v) :: d' else (k', v') :: update k v d'
  end.

(** A value passed where the program expects a position.  [PyOther] stands
    for any object that is not an instance of [int] (a [float], a [str],
    [None], ...); the program only ever formats such a value, so it carries
    the text [str()] gives for it.  [bool] is a subclass of [int]:
    [isinstance(True, int)] holds and [True] compares as [1]. *)
Inductive value : Type :=
| PyInt (z : Z)
| PyBool (b : bool)
| PyOther (repr : string).

Definition isinstance_int (v : value) : bool :=
  match v with
  | PyInt _ | PyBool _ => true
  | PyOther _ => false
  end.

(** The integer an instance of [int] denotes. *)
Definition int_value (v : value) : Z :=
  match v with
  | PyInt z => z
  | PyBool true => 1
  | PyBool false => 0
  | PyOther _ => 0
  end.

(** [a > b] and [a < b]; the program evaluates them on instances of [int]
    only. *)
Definition int_gt (a b : value) : bool := (int_value a >? int_value b)%Z.
Definition int_lt (a b : value) : bool := (int_value a <? int_value b)%Z.

(** The text ["{}".format(v)] produces. *)
Definition str (v : value) : string :=
  match v with
  | PyInt z => NilZero.string_of_int (Z.to_int z)
  | PyBool true => "True"
  | PyBool false => "False"
  | PyOther repr => repr
  end.

End Py.

Import Py.

(* ===================================================================== *)
(** ** The state-and-exception monad *)
(* ===================================================================== *)

(** A computation over a state [S]: it returns a value or raises, and in
    both cases leaves a state behind. *)
Definition M (S A : Type) : Type := S -> result A * S.

Definition ret {S A : Type} (a : A) : M S A := fun s => (Ok a, s).

Definition bind {S A B : Type} (m : M S A) (k : A -> M S B) : M S B :=
  fun s =>
    match m s with
    | (Ok a, s') => k a s'
    | (Raise e, s') => (Raise e, s')
    end.

Definition raise {S A : Type} (e : exn) : M S A := fun s => (Raise e, s).

Definition get {S : Type} : M S S := fun s => (Ok s, s).

Definition modify {S : Type} (f : S -> S) : M S unit := fun s => (Ok tt, f s).

(** [assert b]. *)
Definition assert {S : Type} (b : bool) : M S unit :=
  if b then ret tt else raise AssertionError.

Arguments ret {S A} a s /.
Arguments bind {S A B} m k s /.
Arguments raise {S A} e s /.
Arguments get {S} s /.
Arguments modify {S} f s /.
Arguments assert {S} b s /.

Declare Scope monad_scope.
Delimit Scope monad_scope with monad.
Notation "x <- m ;; k" := (bind m (fun x => k))
  (at level 61, m at next level, right associativity) : monad_scope.
Notation "m ;; k" := (bind m (fun _ => k))
  (at level 61, right associativity) : monad_scope.
Local Open Scope monad_scope.

(** [for x in l: body x]. *)
Fixpoint for_each {S A : Type} (l : list A) (body : A -> M S unit) : M S unit :=
  match l with
  | [] => ret tt
  | x :: l' => body x ;; for_each l' body
  end.

(* ===================================================================== *)
(** ** class PairsHeader *)
(* ===================================================================== *)

Record PairsHeader : Type := mkPairsHeader {
  shape : string;
  sorted : string;
  chromosomes : list string;
  genome_assembly : option string;
  columns : list string;
  additional_lines : dict
}.

Definition reserved_header_keys : list string :=
  ["shape"; "sorted"; "chromosomes"; "genome_assembly"; "columns"].

(** The list [self.columns] starts from. *)
Definition reserved_columns : list string :=
  ["readID"; "chr1"; "position1"; "chr2"; "position2"; "strand1"; "strand2"].

(** Default values of the keyword arguments of [__init__]. *)
Definition default_shape : string := "U".
Definition default_sorted : string := "chr1-chr2-pos1-pos2".

(** While [__init__] runs, the object under construction is the state; an
    attribute not yet assigned holds the value [blank] gives it and is never
    read before its assignment. *)
Definition blank : PairsHeader :=
  mkPairsHeader "" "" [] None [] [].

Definition set_shape (v : string) (h : PairsHeader) : PairsHeader :=
  mkPairsHeader v (sorted h) (chromosomes h) (genome_assembly h) (columns h)
    (additional_lines h).
Definition set_sorted (v : string) (h : PairsHeader) : PairsHeader :=
  mkPairsHeader (shape h) v (chromosomes h) (genome_assembly h) (columns h)
    (additional_lines h).
Definition set_chromosomes (v : list string) (h : PairsHeader) : PairsHeader :=
  mkPairsHeader (shape h) (sorted h) v (genome_assembly h) (columns h)
    (additional_lines h).
Definition set_genome_assembly (v : option string) (h : PairsHeader) : PairsHeader :=
  mkPairsHeader (shape h) (sorted h) (chromosomes h) v (columns h)
    (additional_lines h).
Definition set_columns (v : list string) (h : PairsHeader) : PairsHeader :=
  mkPairsHeader (shape h) (sorted h) (chromosomes h) (genome_assembly h) v
    (additional_lines h).
Definition set_additional_lines (v : dict) (h : PairsHeader) : PairsHeader :=
  mkPairsHeader (shape h) (sorted h) (chromosomes h) (genome_assembly h)
    (columns h) v.

(** The loop of [__init__] over [additional_columns]. *)
Definition append_columns (additional_columns : list string) : M PairsHeader unit :=
  for_each additional_columns (fun c =>
    self <- get ;;
    assert (negb (contains c (columns self))) ;;
    modify (set_columns (columns self ++ [c]))).

(** The loop of [__init__] over [additional_lines.items()]. *)
Definition copy_additional_lines (additional_lines_arg : dict) : M PairsHeader unit :=
  for_each additional_lines_arg (fun kv =>
    assert (negb (contains (fst kv) reserved_header_keys)) ;;
    self <- get ;;
    modify (set_additional_lines
              (update (fst kv) (snd kv) (additional_lines self)))).

(** [PairsHeader.__init__].  [chromosomes_arg] is [None] or a list. *)
Definition init_body (chromosomes_arg : option (list string))
    (shape_arg sorted_arg : string) (genome_assembly_arg : option string)
    (additional_columns : list string) (additional_lines_arg : dict)
  : M PairsHeader unit :=
  assert (match chromosomes_arg with Some _ => true | None => false end) ;;
  assert ((shape_arg =? "U")%string || (shape_arg =? "L")%string) ;;
  (* [sorted == K or K]: the comparison, or else the truth value of the
     literal itself *)
  assert ((sorted_arg =? "chr1-chr2-pos1-pos2")%string
          || str_truthy "chr1-chr2-pos1-pos2") ;;
  modify (set_shape shape_arg) ;;
  modify (set_sorted sorted_arg) ;;
  modify (set_chromosomes
            (list_sort (match chromosomes_arg with Some l => l | None => [] end))) ;;
  modify (set_genome_assembly genome_assembly_arg) ;;
  modify (set_columns reserved_columns) ;;
  (if (0 <? length additional_columns)%nat
   then append_columns additional_columns
   else ret tt) ;;
  modify (set_additional_lines []) ;;
  copy_additional_lines additional_lines_arg.

(** The constructor call: the new object, or the exception. *)
Definition PairsHeader_init (chromosomes_arg : option (list string))
    (shape_arg sorted_arg : string) (genome_assembly_arg : option string)
    (additional_columns : list string) (additional_lines_arg : dict)
  : result PairsHeader :=
  match init_body chromosomes_arg shape_arg sorted_arg genome_assembly_arg
          additional_columns additional_lines_arg blank with
  | (Ok _, self) => Ok self
  | (Raise e, _) => Raise e
  end.

(** The sink [fout]: the strings written to it so far, oldest first. *)
Definition sink : Type := list string.

(** [fout.write(s)]. *)
Definition write (s : string) : M sink unit := modify (fun out => out ++ [s]).

(** The text a sink holds. *)
Definition content (out : sink) : string := String.concat "" out.

(** [PairsHeader.format_additional_lines]. *)
Definition format_additional_lines (self : PairsHeader) : string :=
  fold_left (fun acc kv => (acc ++ ("#" ++ fst kv ++ " : " ++ snd kv ++ nl))%string)
            (additional_lines self) "".

(** [PairsHeader.print_header]; the state is the sink.  The test
    [additional_lines_formatted is not ''] compares with the empty string
    (CPython shares one empty [str] object). *)
Definition print_header (self : PairsHeader) : M sink unit :=
  let shape_text :=
    if (shape self =? "U")%string then "upper triangle" else "lower triangle" in
  write ("#shape : " ++ shape_text ++ nl)%string ;;
  write ("#sorted : " ++ sorted self ++ nl)%string ;;
  write ("#chromosomes : " ++ join " " (chromosomes self) ++ nl)%string ;;
  match genome_assembly self with
  | Some g => write ("#genome_assembly : " ++ g ++ nl)%string
  | None => ret tt
  end ;;
  write ("#columns : " ++ join " " (columns self) ++ nl)%string ;;
  let additional_lines_formatted := format_additional_lines self in
  if negb (additional_lines_formatted =? "")%string
  then write additional_lines_formatted
  else ret tt.

(* ===================================================================== *)
(** ** class PairsLine *)
(* ===================================================================== *)

(** The attributes of a [PairsLine] object; [None] is an attribute that was
    never assigned. *)
Record PairsLine : Type := mkPairsLine {
  header : PairsHeader;
  readID : option string;
  optional : option dict;
  chr1 : option string;
  chr2 : option string;
  pos1 : option value;
  pos2 : option value;
  strand1 : option string;
  strand2 : option string
}.

(** [PairsLine.__init__] assigns [self.header] only. *)
Definition PairsLine_init (h : PairsHeader) : PairsLine :=
  mkPairsLine h None None None None None None None None.

Definition set_readID (v : string) (l : PairsLine) : PairsLine :=
  mkPairsLine (header l) (Some v) (optional l) (chr1 l) (chr2 l) (pos1 l)
    (pos2 l) (strand1 l) (strand2 l).
Definition set_optional (v : dict) (l : PairsLine) : PairsLine :=
  mkPairsLine (header l) (readID l) (Some v) (chr1 l) (chr2 l) (pos1 l)
    (pos2 l) (strand1 l) (strand2 l).
Definition set_chr1 (v : string) (l : PairsLine) : PairsLine :=
  mkPairsLine (header l) (readID l) (optional l) (Some v) (chr2 l) (pos1 l)
    (pos2 l) (strand1 l) (strand2 l).
Definition set_chr2 (v : string) (l : PairsLine) : PairsLine :=
  mkPairsLine (header l) (readID l) (optional l) (chr1 l) (Some v) (pos1 l)
    (pos2 l) (strand1 l) (strand2 l).
Definition set_pos1 (v : value) (l : PairsLine) : PairsLine :=
  mkPairsLine (header l) (readID l) (optional l) (chr1 l) (chr2 l) (Some v)
    (pos2 l) (strand1 l) (strand2 l).
Definition set_pos2 (v : value) (l : PairsLine) : PairsLine :=
  mkPairsLine (header l) (readID l) (optional l) (chr1 l) (chr2 l) (pos1 l)
    (Some v) (strand1 l) (strand2 l).
Definition set_strand1 (v : string) (l : PairsLine) : PairsLine :=
  mkPairsLine (header l) (readID l) (optional l) (chr1 l) (chr2 l) (pos1 l)
    (pos2 l) (Some v) (strand2 l).
Definition set_strand2 (v : string) (l : PairsLine) : PairsLine :=
  mkPairsLine (header l) (readID l) (optional l) (chr1 l) (chr2 l) (pos1 l)
    (pos2 l) (strand1 l) (Some v).

(** Reading an attribute. *)
Definition attr {S A : Type} (a : option A) : M S A :=
  match a with
  | Some v => ret v
  | None => raise AttributeError
  end.

Arguments attr {S A} a /.

(** [PairsLine.add_optional]; the state is [self]. *)
Definition add_optional (keyvaluepairs : dict) : M PairsLine unit :=
  for_each keyvaluepairs (fun kv =>
    self <- get ;;
    assert (contains (fst kv) (columns (header self))) ;;
    d <- attr (optional self) ;;
    modify (set_optional (update (fst kv) (snd kv) d))).

(** The six assignments of each branch of [add]. *)
Definition set_mates (c1 : string) (p1 : value) (s1 : string)
    (c2 : string) (p2 : value) (s2 : string) : M PairsLine unit :=
  modify (set_chr1 c1) ;;
  modify (set_chr2 c2) ;;
  modify (set_pos1 p1) ;;
  modify (set_pos2 p2) ;;
  modify (set_strand1 s1) ;;
  modify (set_strand2 s2).

Definition default_strand : string := ".".
Definition default_readID : string := ".".

(** [PairsLine.add]; the state is [self].  In Python [a and b or c] is
    [(a and b) or c]. *)
Definition add (chr1_arg : string) (pos1_arg : value) (chr2_arg : string)
    (pos2_arg : value) (strand1_arg strand2_arg readID_arg : string)
    (optional_arg : dict) : M PairsLine unit :=
  self <- get ;;
  assert (contains chr1_arg (chromosomes (header self))) ;;
  assert (contains chr2_arg (chromosomes (header self))) ;;
  assert (isinstance_int pos1_arg && int_gt pos1_arg (PyInt 0)) ;;
  assert (isinstance_int pos2_arg && int_gt pos2_arg (PyInt 0)) ;;
  modify (set_readID readID_arg) ;;
  modify (set_optional []) ;;
  (if (0 <? length optional_arg)%nat then add_optional optional_arg else ret tt) ;;
  if ((shape (header self) =? "U")%string && str_gt chr1_arg chr2_arg)
     || ((chr1_arg =? chr2_arg)%string && int_gt pos1_arg pos2_arg)
  then set_mates chr2_arg pos2_arg strand2_arg chr1_arg pos1_arg strand1_arg
  else if ((shape (header self) =? "L")%string && str_gt chr2_arg chr1_arg)
          || ((chr1_arg =? chr2_arg)%string && int_lt pos1_arg pos2_arg)
  then set_mates chr2_arg pos2_arg strand2_arg chr1_arg pos1_arg strand1_arg
  else set_mates chr1_arg pos1_arg strand1_arg chr2_arg pos2_arg strand2_arg.

(** [PairsLine.printline]; the state is the sink.  The arguments of
    [format] are read before anything is written. *)
Definition printline (self : PairsLine) : M sink unit :=
  r <- attr (readID self) ;;
  c1 <- attr (chr1 self) ;;
  p1 <- attr (pos1 self) ;;
  c2 <- attr (chr2 self) ;;
  p2 <- attr (pos2 self) ;;
  s1 <- attr (strand1 self) ;;
  s2 <- attr (strand2 self) ;;
  write (r ++ tab ++ c1 ++ tab ++ str p1 ++ tab ++ c2 ++ tab ++ str p2
           ++ tab ++ s1 ++ tab ++ s2)%string ;;
  (if (7 <? length (columns (header self)))%nat then
     d <- attr (optional self) ;;
     for_each (keys d) (fun opt =>
       match lookup opt d with
       | Some v => write (tab ++ v)%string
       | None => raise KeyError
       end)
   else ret tt) ;;
  write nl.

(* ===================================================================== *)
(** ** The scenario of the specification and of the [__main__] block *)
(* ===================================================================== *)

Module Demo.

(** [PairsHeader(['chr1','chr2'], genome_assembly='hg19',
    additional_columns=['mismatch'])]. *)
Definition make_header : result PairsHeader :=
  PairsHeader_init (Some ["chr1"; "chr2"]) default_shape default_sorted
    (Some "hg19") ["mismatch"] [].

(** The object that call builds (see [Demo.make_header_ok]). *)
Definition hdr : PairsHeader :=
  mkPairsHeader "U" "chr1-chr2-pos1-pos2" ["chr1"; "chr2"] (Some "hg19")
    (reserved_columns ++ ["mismatch"]) [].

(** [p.add('chr1', 1000, 'chr2', 3000)] with the default arguments. *)
Definition add_first : M PairsLine unit :=
  add "chr1" (PyInt 1000) "chr2" (PyInt 3000) default_strand default_strand
    default_readID [].

(** [p.add_optional({'mismatch': 'chr1:1070:A>T'})]. *)
Definition add_mismatch : M PairsLine unit :=
  add_optional [("mismatch", "chr1:1070:A>T")].

(** The object after [p = PairsLine(header); p.add('chr1', 1000, 'chr2', 3000)]. *)
Definition line1 : PairsLine := snd (add_first (PairsLine_init hdr)).

(** The object after the further call of [add_optional]. *)
Definition line2 : PairsLine := snd (add_mismatch line1).

(** The text [printline] writes into an empty sink. *)
Definition printed (self : PairsLine) : string := content (snd (printline self [])).

(** The second [add] of the [__main__] block:
    [p.add('chr2', 4000, 'chr2', 5000, '+', '-', optional = {'mismatch':
    'chr2:4916:G>C, chr2:5106:C>T'})]. *)
Definition add_second : M PairsLine unit :=
  add "chr2" (PyInt 4000) "chr2" (PyInt 5000) "+" "-" default_readID
    [("mismatch", "chr2:4916:G>C, chr2:5106:C>T")].

(** A header of shape ['L'] over the same chromosomes. *)
Definition lower_hdr : PairsHeader :=
  mkPairsHeader "L" "chr1-chr2-pos1-pos2" ["chr1"; "chr2"] None
    reserved_columns [].

(** An [add] whose optional mapping names a column the header does not
    have. *)
Definition add_unknown_column : M PairsLine unit :=
  add "chr1" (PyInt 1000) "chr2" (PyInt 3000) default_strand default_strand
    "read7" [("quality", "60")].

End Demo.

(* ===================================================================== *)
(** ** Notions of the specification *)
(* ===================================================================== *)

(** A header line of the file format: [#key : value] and a newline. *)
Definition header_line (key value : string) : string :=
  ("#" ++ key ++ " : " ++ value ++ nl)%string.

(** Fields separated by tabs. *)
Definition tsv (fields : list string) : string := String.concat tab fields.

(** A position [add] accepts: an instance of [int] that is greater than
    zero. *)
Definition positive_int (v : value) : Prop :=
  isinstance_int v = true /\ (0 < int_value v)%Z.

(** The place of a chromosome in the header's list. *)
Fixpoint rank (c : string) (l : list string) : option nat :=
  match l with
  | [] => None
  | x :: l' => if (c =? x)%string then Some 0%nat else option_map S (rank c l')
  end.

(** The order of two loci: by the place of the chromosome in the header's
    list, then by position. *)
Definition locus_le (h : PairsHeader) (c1 : string) (p1 : value)
    (c2 : string) (p2 : value) : bool :=
  match rank c1 (chromosomes h), rank c2 (chromosomes h) with
  | Some i, Some j =>
      (i <? j)%nat || ((i =? j)%nat && (int_value p1 <=? int_value p2)%Z)
  | _, _ => false
  end.

(** The ordering example of the constructor's docstring. *)
Definition example_order : list string :=
  ["1"; "11"; "2"; "3"; "6"; "X"; "X12"; "XXX"; "Y"; "_"].

(** The text of the additional-lines block: one header line per entry. *)
Definition additional_block (al : dict) : string :=
  String.concat "" (map (fun kv => header_line (fst kv) (snd kv)) al).

(** The condition under which [add] exchanges the two mates: the test of
    its [if] or the test of its [elif]. *)
Definition exchanges (sh : string) (c1 : string) (p1 : value)
    (c2 : string) (p2 : value) : bool :=
  (((sh =? "U")%string && str_gt c1 c2) || ((c1 =? c2)%string && int_gt p1 p2))
  || (((sh =? "L")%string && str_gt c2 c1) || ((c1 =? c2)%string && int_lt p1 p2)).

(** The dictionary [add_optional] leaves when no key is refused. *)
Definition merged (kvs d : dict) : dict :=
  fold_left (fun d kv => update (fst kv) (snd kv) d) kvs d.

(** Two objects with the same header and the same mates. *)
Definition same_mates (a b : PairsLine) : Prop :=
  header a = header b /\ chr1 a = chr1 b /\ pos1 a = pos1 b /\
  strand1 a = strand1 b /\ chr2 a = chr2 b /\ pos2 a = pos2 b /\
  strand2 a = strand2 b.

(** An optional mapping that fits a header: no key twice, every key a
    column. *)
Definition fits_columns (h : PairsHeader) (d : dict) : Prop :=
  NoDup (keys d) /\ forall k, In k (keys d) -> In k (columns h).

(** A record that fits its header: each attribute, where it is assigned,
    holds a value [add] accepts for this header. *)
Definition fits_header (self : PairsLine) : Prop :=
  (forall a, chr1 self = Some a -> In a (chromosomes (header self))) /\
  (forall b, chr2 self = Some b -> In b (chromosomes (header self))) /\
  (forall p, pos1 self = Some p -> positive_int p) /\
  (forall p, pos2 self = Some p -> positive_int p) /\
  (forall d, optional self = Some d -> fits_columns (header self) d).

(** The arguments [additional_columns] the constructor accepts: no name is
    a reserved column, and no name occurs twice. *)
Definition columns_accepted (ac : list string) : Prop :=
  (forall c, In c ac -> ~ In c reserved_columns) /\ NoDup ac.

(** The arguments [additional_lines] the constructor accepts: no key is a
    reserved header key. *)
Definition lines_accepted (al : dict) : Prop :=
  forall k, In k (keys al) -> ~ In k reserved_header_keys.

(** One step of a computation. *)
Ltac step :=
  cbn [bind assert ret raise modify get attr negb fst snd].

(* ===================================================================== *)
(** ** Facts about the builtins *)
(* ===================================================================== *)

Section StringOrder.

(** [String.compare] is the comparison of the ordered type of strings. *)
Lemma compare_as_OT (a b : string) :
  (a ?= b)%string = String_as_OT.compare a b.
Proof.
  revert b; induction a as [|x a IH]; intros [|y b]; reflexivity.
Qed.

Lemma str_lt_trans (a b c : string) :
  str_lt a b = true -> str_lt b c = true -> str_lt a c = true.
Proof.
  unfold str_lt, String.ltb. intros H1 H2.
  destruct (a ?= b)%string eqn:Hab; try discriminate.
  destruct (b ?= c)%string eqn:Hbc; try discriminate.
  rewrite compare_as_OT in Hab, Hbc.
  pose proof (@StrictOrder_Transitive _ _ String_as_OT.lt_strorder a b c Hab Hbc) as H.
  unfold String_as_OT.lt in H. rewrite <- compare_as_OT in H. now rewrite H.
Qed.

Lemma str_lt_irrefl (a : string) : str_lt a a = false.
Proof.
  unfold str_lt, String.ltb.
  destruct (a ?= a)%string eqn:H; auto.
  rewrite compare_as_OT in H.
  exfalso. exact (@StrictOrder_Irreflexive _ _ String_as_OT.lt_strorder a H).
Qed.

Lemma str_lt_asym (a b : string) : str_lt a b = true -> str_lt b a = false.
Proof.
  intros H. destruct (str_lt b a) eqn:H'; auto.
  pose proof (str_lt_trans _ _ _ H H') as Haa.
  rewrite str_lt_irrefl in Haa. discriminate.
Qed.

(** Neither smaller than the other: equal. *)
Lemma str_lt_connex (a b : string) :
  str_lt a b = false -> str_lt b a = false -> a = b.
Proof.
  unfold str_lt, String.ltb. rewrite (String.compare_antisym b a).
  destruct (a ?= b)%string eqn:H; simpl; try discriminate.
  intros _ _. now apply String.compare_eq_iff.
Qed.

End StringOrder.

Lemma str_le_trans (a b c : string) : str_le a b -> str_le b c -> str_le a c.
Proof.
  unfold str_le. intros Hab Hbc.
  destruct (str_lt c a) eqn:Hca; auto.
  destruct (str_lt a b) eqn:Hlt.
  - pose proof (str_lt_trans _ _ _ Hca Hlt). congruence.
  - pose proof (str_lt_connex _ _ Hlt Hab). subst. congruence.
Qed.

Lemma str_le_antisym (a b : string) : str_le a b -> str_le b a -> a = b.
Proof. unfold str_le. intros H1 H2. now apply str_lt_connex. Qed.

Lemma contains_In (x : string) (l : list string) :
  contains x l = true <-> In x l.
Proof.
  induction l as [|y l IH]; simpl.
  - split; [discriminate | tauto].
  - rewrite orb_true_iff, IH, String.eqb_eq. intuition congruence.
Qed.

Lemma contains_false (x : string) (l : list string) :
  contains x l = false <-> ~ In x l.
Proof.
  rewrite <- contains_In. destruct (contains x l); intuition congruence.
Qed.

Lemma contains_app (x : string) (l1 l2 : list string) :
  contains x (l1 ++ l2) = contains x l1 || contains x l2.
Proof.
  induction l1 as [|y l1 IH]; simpl; auto. now rewrite IH, orb_assoc.
Qed.

Section Sorting.

Lemma insort_perm (x : string) (l : list string) :
  Permutation (x :: l) (insort x l).
Proof.
  induction l as [|y l IH]; simpl; auto.
  destruct (str_lt y x); auto.
  eapply perm_trans; [apply perm_swap | now apply perm_skip].
Qed.

Lemma list_sort_perm (l : list string) : Permutation l (list_sort l).
Proof.
  induction l as [|x l IH]; simpl; auto.
  eapply perm_trans; [apply perm_skip, IH | apply insort_perm].
Qed.

Lemma insort_hd (x a : string) (l : list string) :
  str_le a x -> HdRel str_le a l -> HdRel str_le a (insort x l).
Proof.
  intros Hax Hl. destruct l as [|y l]; simpl.
  - now constructor.
  - inversion Hl; subst. destruct (str_lt y x); now constructor.
Qed.

Lemma insort_sorted (x : string) (l : list string) :
  Sorted str_le l -> Sorted str_le (insort x l).
Proof.
  induction 1 as [|y l Hs IH Hhd]; simpl.
  - repeat constructor.
  - destruct (str_lt y x) eqn:Hyx.
    + constructor; auto. apply insort_hd; auto.
      unfold str_le. now apply str_lt_asym.
    + constructor; [now constructor | constructor; exact Hyx].
Qed.

Lemma list_sort_sorted (l : list string) : Sorted str_le (list_sort l).
Proof.
  induction l; simpl; [constructor | now apply insort_sorted].
Qed.

(** A sorted list is determined by its elements. *)
Lemma sorted_perm_unique (l1 l2 : list string) :
  StronglySorted str_le l1 -> StronglySorted str_le l2 ->
  Permutation l1 l2 -> l1 = l2.
Proof.
  revert l2; induction l1 as [|a l1 IH]; intros l2 H1 H2 Hp.
  - now apply Permutation_nil in Hp.
  - destruct l2 as [|b l2].
    + apply Permutation_sym, Permutation_nil in Hp. discriminate.
    + inversion H1 as [|? ? Hs1 Ha]; inversion H2 as [|? ? Hs2 Hb]; subst.
      assert (a = b).
      { assert (In a (b :: l2)) as [->|Hin]
          by (eapply Permutation_in; [exact Hp | now left]); auto.
        assert (In b (a :: l1)) as [->|Hin']
          by (eapply Permutation_in; [apply Permutation_sym, Hp | now left]); auto.
        rewrite Forall_forall in Ha, Hb.
        apply str_le_antisym; auto. }
      subst. f_equal. apply IH; auto.
      now apply Permutation_cons_inv in Hp.
Qed.

(** [sort] returns the one sorted arrangement of its argument. *)
Lemma list_sort_unique (l l' : list string) :
  Permutation l l' -> Sorted str_le l' -> list_sort l = l'.
Proof.
  intros Hp Hs. apply sorted_perm_unique.
  - apply Sorted_StronglySorted; [exact str_le_trans | apply list_sort_sorted].
  - apply Sorted_StronglySorted; [exact str_le_trans | exact Hs].
  - eapply perm_trans; [apply Permutation_sym, list_sort_perm | exact Hp].
Qed.

End Sorting.

(* ===================================================================== *)
(** ** The constructor of PairsHeader *)
(* ===================================================================== *)

Lemma bind_fst_raise {S A B : Type} (m : M S A) (k : A -> M S B) (s : S) (e : exn) :
  fst (m s) = Raise e -> fst (bind m k s) = Raise e.
Proof. unfold bind. destruct (m s) as [[a|e'] s']; simpl; congruence. Qed.

Lemma columns_loop_ok (ac : list string) : forall h : PairsHeader,
  (forall c, In c ac -> ~ In c (columns h)) -> NoDup ac ->
  append_columns ac h = (Ok tt, set_columns (columns h ++ ac) h).
Proof.
  induction ac as [|c ac IH]; intros h Hnew Hnd.
  - destruct h; unfold set_columns; simpl. now rewrite app_nil_r.
  - inversion Hnd as [|? ? Hc Hnd']; subst.
    assert (Hf : contains c (columns h) = false)
      by (apply contains_false, Hnew; now left).
    unfold append_columns in *. cbn [for_each]. step. rewrite Hf. step.
    rewrite IH; auto.
    + destruct h; unfold set_columns; simpl. now rewrite <- app_assoc.
    + intros c' Hin. simpl. rewrite in_app_iff. simpl.
      intros [Hold|[->|[]]]; [apply (Hnew c'); auto; now right | contradiction].
Qed.

Lemma columns_loop_fail (ac : list string) : forall h : PairsHeader,
  (exists c, In c ac /\ In c (columns h)) \/ ~ NoDup ac ->
  fst (append_columns ac h) = Raise AssertionError.
Proof.
  induction ac as [|c ac IH]; intros h H.
  - destruct H as [(c & [] & _)|H]. destruct H; constructor.
  - unfold append_columns in *. cbn [for_each]. step.
    destruct (contains c (columns h)) eqn:Hc; step; auto.
    apply contains_false in Hc.
    apply IH. simpl.
    destruct H as [(c' & [->|Hin] & Hcol)|Hnd].
    + contradiction.
    + left. exists c'. rewrite in_app_iff. auto.
    + destruct (in_dec string_dec c ac) as [Hin|Hnin].
      * left. exists c. rewrite in_app_iff. simpl. auto.
      * right. intros Hnd'. apply Hnd. now constructor.
Qed.

Lemma lines_loop_ok (al : dict) : forall h : PairsHeader,
  (forall k, In k (keys al) -> ~ In k reserved_header_keys) ->
  copy_additional_lines al h =
  (Ok tt, set_additional_lines
            (fold_left (fun d kv => update (fst kv) (snd kv) d) al
                       (additional_lines h)) h).
Proof.
  induction al as [|[k v] al IH]; intros h Hk.
  - now destruct h.
  - assert (Hf : contains k reserved_header_keys = false)
      by (apply contains_false, Hk; now left).
    unfold copy_additional_lines in *. cbn [for_each]. step.
    rewrite Hf. step.
    rewrite IH; [now destruct h | intros k' Hin; apply Hk; now right].
Qed.

Lemma lines_loop_fail (al : dict) : forall h : PairsHeader,
  (exists k, In k (keys al) /\ In k reserved_header_keys) ->
  fst (copy_additional_lines al h) = Raise AssertionError.
Proof.
  induction al as [|[k v] al IH]; intros h (k' & Hin & Hres).
  - destruct Hin.
  - unfold copy_additional_lines in *. cbn [for_each]. step.
    destruct (contains k reserved_header_keys) eqn:Hc; step; auto.
    apply IH. exists k'. split; auto.
    destruct Hin as [<-|Hin]; auto.
    apply contains_false in Hc. contradiction.
Qed.

(** What the constructor builds from acceptable arguments. *)
Lemma init_ok (l : list string) (sh so : string) (ga : option string)
    (ac : list string) (al : dict) :
  sh = "U" \/ sh = "L" ->
  (forall c, In c ac -> ~ In c reserved_columns) -> NoDup ac ->
  (forall k, In k (keys al) -> ~ In k reserved_header_keys) ->
  PairsHeader_init (Some l) sh so ga ac al =
  Ok (mkPairsHeader sh so (list_sort l) ga (reserved_columns ++ ac)
        (fold_left (fun d kv => update (fst kv) (snd kv) d) al [])).
Proof.
  intros Hsh Hac Hnd Hal.
  assert (Hshb : ((sh =? "U")%string || (sh =? "L")%string) = true)
    by (destruct Hsh; subst; reflexivity).
  unfold PairsHeader_init, init_body.
  step. rewrite Hshb. step.
  change (str_truthy "chr1-chr2-pos1-pos2") with true.
  rewrite orb_true_r. step.
  set (h1 := set_columns _ _).
  assert (Hloop : (if (0 <? length ac)%nat then append_columns ac else ret tt) h1
                  = (Ok tt, set_columns (columns h1 ++ ac) h1)).
  { destruct ac as [|c ac']; [reflexivity|].
    cbn [length Nat.ltb Nat.leb].
    apply columns_loop_ok; auto. }
  rewrite Hloop. step.
  rewrite lines_loop_ok by exact Hal. reflexivity.
Qed.

Lemma columns_accepted_dec (ac cols : list string) :
  ((forall c, In c ac -> ~ In c cols) /\ NoDup ac) \/
  ((exists c, In c ac /\ In c cols) \/ ~ NoDup ac).
Proof.
  destruct (NoDup_dec string_dec ac) as [Hnd|Hnd]; [|now right; right].
  destruct (existsb (fun c => contains c cols) ac) eqn:He.
  - apply existsb_exists in He as (c & Hin & Hc). apply contains_In in Hc.
    right; left. now exists c.
  - left. split; auto. intros c Hin Hcol.
    assert (existsb (fun c => contains c cols) ac = true); [|congruence].
    apply existsb_exists. exists c. split; auto. now apply contains_In.
Qed.

Lemma lines_accepted_dec (al : dict) :
  lines_accepted al \/ (exists k, In k (keys al) /\ In k reserved_header_keys).
Proof.
  destruct (existsb (fun k => contains k reserved_header_keys) (keys al)) eqn:He.
  - apply existsb_exists in He as (k & Hin & Hk). apply contains_In in Hk.
    right. now exists k.
  - left. intros k Hin Hres.
    assert (existsb (fun k => contains k reserved_header_keys) (keys al) = true);
      [|congruence].
    apply existsb_exists. exists k. split; auto. now apply contains_In.
Qed.

(** Every way the constructor fails. *)
Lemma init_fail (ch : option (list string)) (sh so : string)
    (ga : option string) (ac : list string) (al : dict) :
  ch = None \/ (sh <> "U" /\ sh <> "L") \/
  ((exists c, In c ac /\ In c reserved_columns) \/ ~ NoDup ac) \/
  (exists k, In k (keys al) /\ In k reserved_header_keys) ->
  PairsHeader_init ch sh so ga ac al = Raise AssertionError.
Proof.
  intros H. destruct ch as [l|]; [|reflexivity].
  unfold PairsHeader_init, init_body. step.
  destruct ((sh =? "U")%string || (sh =? "L")%string) eqn:Hsh; step;
    [|reflexivity].
  change (str_truthy "chr1-chr2-pos1-pos2") with true.
  rewrite orb_true_r. step.
  set (h1 := set_columns _ _).
  destruct (columns_accepted_dec ac (columns h1)) as [[Hc Hnd]|Hbad].
  - assert (Hloop : (if (0 <? length ac)%nat then append_columns ac else ret tt) h1
                    = (Ok tt, set_columns (columns h1 ++ ac) h1)).
    { destruct ac as [|c ac']; [reflexivity|].
      cbn [length Nat.ltb Nat.leb]. apply columns_loop_ok; auto. }
    rewrite Hloop. step.
    set (h2 := set_additional_lines _ _).
    assert (Hl : fst (copy_additional_lines al h2) = Raise AssertionError).
    { apply lines_loop_fail.
      destruct H as [H|[[H1 H2]|[[(c & Hin & Hres)|H]|H]]]; auto;
        try discriminate; try contradiction.
      - apply orb_true_iff in Hsh as [Hs|Hs]; apply String.eqb_eq in Hs;
          contradiction.
      - exfalso. exact (Hc c Hin Hres). }
    destruct (copy_additional_lines al h2) as [[u|e] h3]; simpl in Hl; congruence.
  - assert (Hloop : fst ((if (0 <? length ac)%nat then append_columns ac else ret tt) h1)
                    = Raise AssertionError).
    { destruct ac as [|c ac'].
      - destruct Hbad as [(c & [] & _)|Hnd]. destruct Hnd; constructor.
      - cbn [length Nat.ltb Nat.leb]. now apply columns_loop_fail. }
    destruct ((if (0 <? length ac)%nat then append_columns ac else ret tt) h1)
      as [[u|e] h2]; simpl in Hloop; congruence.
Qed.

(** The constructor either builds the header of [init_ok] or raises
    [AssertionError]. *)
Lemma init_cases (ch : option (list string)) (sh so : string)
    (ga : option string) (ac : list string) (al : dict) :
  PairsHeader_init ch sh so ga ac al = Raise AssertionError \/
  exists l, ch = Some l /\ (sh = "U" \/ sh = "L") /\ columns_accepted ac /\
            lines_accepted al /\
            PairsHeader_init ch sh so ga ac al =
            Ok (mkPairsHeader sh so (list_sort l) ga (reserved_columns ++ ac)
                  (fold_left (fun d kv => update (fst kv) (snd kv) d) al [])).
Proof.
  destruct ch as [l|]; [|left; now apply init_fail; left].
  destruct (string_dec sh "U") as [HU|HU];
    [|destruct (string_dec sh "L") as [HL|HL];
      [|left; apply init_fail; right; left; now split]].
  all: destruct (columns_accepted_dec ac reserved_columns) as [[Hc Hnd]|Hc];
    [|left; apply init_fail; auto].
  all: destruct (lines_accepted_dec al) as [Hl|Hl];
    [|left; apply init_fail; auto 6].
  all: right; exists l; repeat split; auto; apply init_ok; auto.
Qed.

(** The header of the scenario is the one its constructor call builds. *)
Lemma make_header_ok : Demo.make_header = Ok Demo.hdr.
Proof. reflexivity. Qed.

(** C4: the constructor accepts every value of the [sorted] argument.  With
    the other arguments acceptable it succeeds and stores the value as the
    header's sort key; and whenever it raises, it raises the same for every
    other value of [sorted], so no failure is on account of that argument. *)
Theorem init_accepts_any_sorted (ch : option (list string)) (sh : string)
    (ga : option string) (ac : list string) (al : dict) (s : string) :
  (forall l, ch = Some l -> sh = "U" \/ sh = "L" ->
     columns_accepted ac -> lines_accepted al ->
     exists h, PairsHeader_init ch sh s ga ac al = Ok h /\ sorted h = s)
  /\
  (forall s' e, PairsHeader_init ch sh s ga ac al = Raise e ->
     PairsHeader_init ch sh s' ga ac al = Raise e).
Proof.
  split.
  - intros l -> Hsh [Hc Hnd] Hl. eexists. split; [now apply init_ok|reflexivity].
  - intros s' e Hs.
    destruct (init_cases ch sh s ga ac al)
      as [Hf|(l & -> & Hsh & [Hc Hnd] & Hl & Hok)]; [|congruence].
    destruct (init_cases ch sh s' ga ac al)
      as [Hf'|(l & -> & Hsh & [Hc Hnd] & Hl & Hok)]; [congruence|].
    rewrite (init_ok l sh s ga ac al) in Hf by auto. discriminate.
Qed.

Lemma init_accepts_any_sorted_witness :
  (exists h, PairsHeader_init (Some ["chr1"; "chr2"]) "U" "by read name" None
               ["mismatch"] [] = Ok h /\ sorted h = "by read name")
  /\ (PairsHeader_init (Some ["chr1"]) "X" "by read name" None [] []
        = Raise AssertionError ->
      PairsHeader_init (Some ["chr1"]) "X" default_sorted None [] []
        = Raise AssertionError).
Proof.
  split.
  - apply (proj1 (init_accepts_any_sorted (Some ["chr1"; "chr2"]) "U" None
                    ["mismatch"] [] "by read name") ["chr1"; "chr2"]).
    + reflexivity.
    + now left.
    + split.
      * intros c [<-|[]]. simpl. intuition discriminate.
      * repeat constructor. simpl. tauto.
    + intros k [].
  - apply (proj2 (init_accepts_any_sorted (Some ["chr1"]) "X" None [] []
                    "by read name")).
Defined.

(** C7, the claim as stated fails: with shape ['U'], a name that is not
    reserved and no additional lines, the constructor still raises when the
    name is given twice in [additional_columns]. *)
Lemma init_duplicate_column_raises :
  contains "a" reserved_columns = false /\
  PairsHeader_init (Some ["chr1"]) "U" default_sorted None ["a"; "a"] []
  = Raise AssertionError.
Proof. split; reflexivity. Qed.

(** C7 (amended): the constructor raises [AssertionError] whenever [shape]
    is neither ['U'] nor ['L'], a name of [additional_columns] is a reserved
    column name or occurs twice, or a key of [additional_lines] is a reserved
    header key; it succeeds when [chromosomes] is not [None], [shape] is
    ['U'] or ['L'], the additional column names are not reserved and pairwise
    distinct, and no key of [additional_lines] is reserved. *)
Theorem init_fails_or_succeeds (ch : option (list string)) (sh so : string)
    (ga : option string) (ac : list string) (al : dict) :
  ((sh <> "U" /\ sh <> "L") \/
   (exists c, In c ac /\ In c reserved_columns) \/ ~ NoDup ac \/
   (exists k, In k (keys al) /\ In k reserved_header_keys) ->
   PairsHeader_init ch sh so ga ac al = Raise AssertionError)
  /\
  (ch <> None -> sh = "U" \/ sh = "L" ->
   columns_accepted ac -> lines_accepted al ->
   exists h, PairsHeader_init ch sh so ga ac al = Ok h).
Proof.
  split.
  - intros H. apply init_fail. tauto.
  - intros Hch Hsh [Hc Hnd] Hl. destruct ch as [l|]; [|contradiction].
    eexists. now apply init_ok.
Qed.

Lemma init_fails_or_succeeds_witness :
  PairsHeader_init (Some ["chr1"]) "upper" default_sorted None [] []
    = Raise AssertionError
  /\ PairsHeader_init (Some ["chr1"]) "U" default_sorted None ["chr1"] []
    = Raise AssertionError
  /\ PairsHeader_init (Some ["chr1"]) "U" default_sorted None [] [("shape", "L")]
    = Raise AssertionError
  /\ exists h, PairsHeader_init (Some ["chr1"; "chr2"]) "L" default_sorted
                 (Some "hg19") ["mismatch"] [("creator", "haha")] = Ok h.
Proof.
  split; [|split; [|split]].
  - apply (proj1 (init_fails_or_succeeds (Some ["chr1"]) "upper" default_sorted
                    None [] [])).
    left. split; discriminate.
  - apply (proj1 (init_fails_or_succeeds (Some ["chr1"]) "U" default_sorted
                    None ["chr1"] [])).
    right; left. exists "chr1". simpl. tauto.
  - apply (proj1 (init_fails_or_succeeds (Some ["chr1"]) "U" default_sorted
                    None [] [("shape", "L")])).
    right; right; right. exists "shape". simpl. tauto.
  - apply (proj2 (init_fails_or_succeeds (Some ["chr1"; "chr2"]) "L"
                    default_sorted (Some "hg19") ["mismatch"]
                    [("creator", "haha")])).
    + discriminate.
    + now right.
    + split.
      * intros c [<-|[]]. simpl. intuition discriminate.
      * repeat constructor. simpl. tauto.
    + intros k [<-|[]]. simpl. intuition discriminate.
Defined.

(** C8: the constructor stores the chromosome sequence sorted ascending in
    the lexicographic order of strings: the stored list is sorted and has the
    elements of the argument; from [['chr2','chr1']] it is
    [['chr1','chr2']], and from the ten names of the example, in any order,
    it is ['1','11','2','3','6','X','X12','XXX','Y','_']. *)
Theorem init_sorts_chromosomes (l : list string) (sh so : string)
    (ga : option string) (ac : list string) (al : dict) (h : PairsHeader) :
  PairsHeader_init (Some l) sh so ga ac al = Ok h ->
  Sorted str_le (chromosomes h) /\ Permutation l (chromosomes h) /\
  (l = ["chr2"; "chr1"] -> chromosomes h = ["chr1"; "chr2"]) /\
  (Permutation l example_order -> chromosomes h = example_order).
Proof.
  intros H.
  destruct (init_cases (Some l) sh so ga ac al)
    as [Hf|(l' & [= <-] & _ & _ & _ & Hok)]; [congruence|].
  rewrite Hok in H. injection H as <-. cbn [chromosomes].
  split; [apply list_sort_sorted|].
  split; [apply list_sort_perm|].
  split.
  - intros ->. reflexivity.
  - intros Hp. apply list_sort_unique; auto.
    unfold example_order. repeat constructor.
Qed.

Lemma init_sorts_chromosomes_witness :
  PairsHeader_init (Some ["chr2"; "chr1"]) default_shape default_sorted None [] []
  = Ok (mkPairsHeader "U" default_sorted ["chr1"; "chr2"] None reserved_columns [])
  /\ Sorted str_le ["chr1"; "chr2"]
  /\ Permutation ["chr2"; "chr1"] ["chr1"; "chr2"]
  /\ (["chr2"; "chr1"] = ["chr2"; "chr1"] -> ["chr1"; "chr2"] = ["chr1"; "chr2"])
  /\ (Permutation ["chr2"; "chr1"] example_order -> ["chr1"; "chr2"] = example_order).
Proof.
  split; [reflexivity|].
  apply (init_sorts_chromosomes ["chr2"; "chr1"] default_shape default_sorted
           None [] []
           (mkPairsHeader "U" default_sorted ["chr1"; "chr2"] None
              reserved_columns [])).
  reflexivity.
Defined.

(** The ten names of the example, given in descending order. *)
Example init_sorts_example_reversed :
  PairsHeader_init (Some (rev example_order)) "L" default_sorted None [] []
  = Ok (mkPairsHeader "L" default_sorted example_order None reserved_columns []).
Proof. reflexivity. Qed.

(* ===================================================================== *)
(** ** Writing the header *)
(* ===================================================================== *)

Lemma append_empty_r (s : string) : (s ++ "")%string = s.
Proof. induction s; simpl; congruence. Qed.

Lemma append_assoc (a b c : string) :
  ((a ++ b) ++ c)%string = (a ++ (b ++ c))%string.
Proof. induction a; simpl; congruence. Qed.

Lemma concat_cons (x : string) (l : list string) :
  String.concat "" (x :: l) = (x ++ String.concat "" l)%string.
Proof. destruct l; simpl; [now rewrite append_empty_r | reflexivity]. Qed.

Lemma format_additional_lines_fold (al : dict) : forall acc : string,
  fold_left (fun acc kv => (acc ++ ("#" ++ fst kv ++ " : " ++ snd kv ++ nl))%string)
            al acc
  = (acc ++ additional_block al)%string.
Proof.
  unfold additional_block.
  induction al as [|kv al IH]; intros acc; cbn [fold_left map].
  - symmetry. apply append_empty_r.
  - rewrite IH, concat_cons, append_assoc. reflexivity.
Qed.

Lemma format_additional_lines_block (h : PairsHeader) :
  format_additional_lines h = additional_block (additional_lines h).
Proof. unfold format_additional_lines. now rewrite format_additional_lines_fold. Qed.

Lemma additional_block_empty (al : dict) :
  (additional_block al =? "")%string = match al with [] => true | _ => false end.
Proof.
  destruct al as [|kv al]; [reflexivity|].
  unfold additional_block. cbn [map]. rewrite concat_cons. reflexivity.
Qed.

(** C9: [print_header] writes, after what the sink already holds, the lines
    [shape], [sorted], [chromosomes], [genome_assembly] (only when there is a
    genome assembly), [columns], and then the block of additional lines
    (only when there are any), each line of the form [#key : value]; for the
    header of the scenario these are exactly five lines. *)
Theorem print_header_lines :
  (forall (h : PairsHeader) (out : sink),
     print_header h out =
     (Ok tt,
      out
      ++ [header_line "shape"
            (if (shape h =? "U")%string then "upper triangle" else "lower triangle");
          header_line "sorted" (sorted h);
          header_line "chromosomes" (join " " (chromosomes h))]
      ++ match genome_assembly h with
         | Some g => [header_line "genome_assembly" g]
         | None => []
         end
      ++ [header_line "columns" (join " " (columns h))]
      ++ match additional_lines h with
         | [] => []
         | _ :: _ => [additional_block (additional_lines h)]
         end))
  /\
  Demo.make_header = Ok Demo.hdr /\
  print_header Demo.hdr [] =
  (Ok tt,
   [header_line "shape" "upper triangle";
    header_line "sorted" "chr1-chr2-pos1-pos2";
    header_line "chromosomes" "chr1 chr2";
    header_line "genome_assembly" "hg19";
    header_line "columns"
      "readID chr1 position1 chr2 position2 strand1 strand2 mismatch"]).
Proof.
  split; [|split; reflexivity].
  intros h out. unfold print_header, write, header_line.
  rewrite format_additional_lines_block, additional_block_empty.
  destruct (genome_assembly h) as [g|], (additional_lines h) as [|kv al];
    step; repeat rewrite <- app_assoc; reflexivity.
Qed.

(* ===================================================================== *)
(** ** add_optional and add *)
(* ===================================================================== *)

Lemma same_mates_refl (a : PairsLine) : same_mates a a.
Proof. unfold same_mates. tauto. Qed.

Lemma same_mates_trans (a b c : PairsLine) :
  same_mates a b -> same_mates b c -> same_mates a c.
Proof. unfold same_mates. intuition congruence. Qed.

(** [add_optional] with every key among the header's columns. *)
Lemma add_optional_ok (kvs : dict) : forall (self : PairsLine) (d : dict),
  optional self = Some d ->
  (forall k, In k (keys kvs) -> In k (columns (header self))) ->
  add_optional kvs self = (Ok tt, set_optional (merged kvs d) self).
Proof.
  induction kvs as [|[k v] kvs IH]; intros self d Hopt Hk.
  - destruct self; simpl in *; subst; reflexivity.
  - assert (Hc : contains k (columns (header self)) = true)
      by (apply contains_In, Hk; now left).
    unfold add_optional in *. cbn [for_each]. step.
    rewrite Hc. step. rewrite Hopt. step.
    rewrite (IH _ (update k v d)).
    + destruct self; reflexivity.
    + reflexivity.
    + intros k' Hin. apply Hk. now right.
Qed.

(** [add_optional] with a key that is not among the header's columns. *)
Lemma add_optional_fail (kvs : dict) : forall (self : PairsLine) (d : dict),
  optional self = Some d ->
  (exists k, In k (keys kvs) /\ ~ In k (columns (header self))) ->
  fst (add_optional kvs self) = Raise AssertionError.
Proof.
  induction kvs as [|[k v] kvs IH]; intros self d Hopt (k' & Hin & Hk').
  - destruct Hin.
  - unfold add_optional in *. cbn [for_each]. step.
    destruct (contains k (columns (header self))) eqn:Hc; step; auto.
    rewrite Hopt. step.
    apply (IH _ (update k v d)); [reflexivity|].
    exists k'. split; auto.
    destruct Hin as [<-|Hin]; auto.
    apply contains_In in Hc. contradiction.
Qed.

(** Whatever its outcome, [add_optional] assigns [self.optional] only. *)
Lemma add_optional_frame (kvs : dict) : forall self : PairsLine,
  same_mates (snd (add_optional kvs self)) self /\
  readID (snd (add_optional kvs self)) = readID self.
Proof.
  induction kvs as [|[k v] kvs IH]; intros self.
  - split; [apply same_mates_refl | reflexivity].
  - unfold add_optional in *. cbn [for_each]. step.
    destruct (contains k (columns (header self))); step;
      [|split; [apply same_mates_refl | reflexivity]].
    destruct (optional self) as [d|]; step;
      [|split; [apply same_mates_refl | reflexivity]].
    destruct (IH (set_optional (update k v d) self)) as [Hm Hr].
    split; [eapply same_mates_trans; [exact Hm|] | exact Hr].
    unfold same_mates. simpl. tauto.
Qed.

Lemma positive_int_test (p : value) :
  isinstance_int p && int_gt p (PyInt 0) = true <-> positive_int p.
Proof.
  unfold positive_int, int_gt. cbn [int_value].
  rewrite andb_true_iff, Z.gtb_ltb, Z.ltb_lt. tauto.
Qed.

Lemma in_columns_dec (kvs : dict) (cols : list string) :
  (forall k, In k (keys kvs) -> In k cols) \/
  (exists k, In k (keys kvs) /\ ~ In k cols).
Proof.
  induction kvs as [|[k v] kvs [IH|(k' & Hin & Hk')]].
  - left. intros k [].
  - destruct (in_dec string_dec k cols) as [Hk|Hk].
    + left. intros k' [<-|Hin]; auto.
    + right. exists k. split; [now left | exact Hk].
  - right. exists k'. split; [now right | exact Hk'].
Qed.

Section Add.

Variables (self : PairsLine) (c1 : string) (p1 : value) (c2 : string)
  (p2 : value) (s1 s2 rid : string) (opt : dict).

(** One of the four checks at the head of [add] fails: nothing is
    assigned. *)
Lemma add_rejected :
  ~ In c1 (chromosomes (header self)) \/ ~ In c2 (chromosomes (header self)) \/
  ~ positive_int p1 \/ ~ positive_int p2 ->
  add c1 p1 c2 p2 s1 s2 rid opt self = (Raise AssertionError, self).
Proof.
  intros H. unfold add. step.
  destruct (contains c1 (chromosomes (header self))) eqn:H1; step; auto.
  destruct (contains c2 (chromosomes (header self))) eqn:H2; step; auto.
  destruct (isinstance_int p1 && int_gt p1 (PyInt 0)) eqn:H3; step; auto.
  destruct (isinstance_int p2 && int_gt p2 (PyInt 0)) eqn:H4; step; auto.
  apply contains_In in H1, H2. apply positive_int_test in H3, H4. tauto.
Qed.

(** The four checks pass and [add_optional] refuses no key. *)
Lemma add_accepted :
  In c1 (chromosomes (header self)) -> In c2 (chromosomes (header self)) ->
  positive_int p1 -> positive_int p2 ->
  (forall k, In k (keys opt) -> In k (columns (header self))) ->
  add c1 p1 c2 p2 s1 s2 rid opt self =
  (Ok tt,
   if exchanges (shape (header self)) c1 p1 c2 p2
   then mkPairsLine (header self) (Some rid) (Some (merged opt []))
          (Some c2) (Some c1) (Some p2) (Some p1) (Some s2) (Some s1)
   else mkPairsLine (header self) (Some rid) (Some (merged opt []))
          (Some c1) (Some c2) (Some p1) (Some p2) (Some s1) (Some s2)).
Proof.
  intros H1 H2 H3 H4 Hk. unfold add. step.
  apply contains_In in H1, H2. apply positive_int_test in H3, H4.
  rewrite H1, H2, H3, H4. step.
  set (self1 := set_optional [] (set_readID rid self)).
  assert (Hopt : (if (0 <? length opt)%nat then add_optional opt else ret tt) self1
                 = (Ok tt, set_optional (merged opt []) self1)).
  { destruct opt as [|kv opt']; [reflexivity|].
    cbn [length Nat.ltb Nat.leb]. now apply add_optional_ok. }
  rewrite Hopt. unfold exchanges.
  destruct (((shape (header self) =? "U")%string && str_gt c1 c2)
            || ((c1 =? c2)%string && int_gt p1 p2)); [reflexivity|].
  destruct (((shape (header self) =? "L")%string && str_gt c2 c1)
            || ((c1 =? c2)%string && int_lt p1 p2)); reflexivity.
Qed.

(** The four checks pass and [add_optional] refuses a key. *)
Lemma add_optional_refused :
  In c1 (chromosomes (header self)) -> In c2 (chromosomes (header self)) ->
  positive_int p1 -> positive_int p2 ->
  (exists k, In k (keys opt) /\ ~ In k (columns (header self))) ->
  fst (add c1 p1 c2 p2 s1 s2 rid opt self) = Raise AssertionError.
Proof.
  intros H1 H2 H3 H4 Hk. unfold add. step.
  apply contains_In in H1, H2. apply positive_int_test in H3, H4.
  rewrite H1, H2, H3, H4. step.
  set (self1 := set_optional [] (set_readID rid self)).
  assert (Hopt : fst ((if (0 <? length opt)%nat then add_optional opt else ret tt) self1)
                 = Raise AssertionError).
  { destruct opt as [|kv opt']; [destruct Hk as (k & [] & _)|].
    cbn [length Nat.ltb Nat.leb]. now apply (add_optional_fail _ self1 []). }
  destruct ((if (0 <? length opt)%nat then add_optional opt else ret tt) self1)
    as [[u|e] self2]; simpl in Hopt; [discriminate|]. simpl. exact Hopt.
Qed.

(** When [add] raises, the header and the mates are as before the call. *)
Lemma add_raise_frame (e : exn) :
  fst (add c1 p1 c2 p2 s1 s2 rid opt self) = Raise e ->
  same_mates (snd (add c1 p1 c2 p2 s1 s2 rid opt self)) self.
Proof.
  unfold add. step.
  destruct (contains c1 (chromosomes (header self))); step;
    [|intros _; apply same_mates_refl].
  destruct (contains c2 (chromosomes (header self))); step;
    [|intros _; apply same_mates_refl].
  destruct (isinstance_int p1 && int_gt p1 (PyInt 0)); step;
    [|intros _; apply same_mates_refl].
  destruct (isinstance_int p2 && int_gt p2 (PyInt 0)); step;
    [|intros _; apply same_mates_refl].
  set (self1 := set_optional [] (set_readID rid self)).
  assert (Hfr : same_mates
                  (snd ((if (0 <? length opt)%nat then add_optional opt else ret tt) self1))
                  self).
  { destruct (0 <? length opt)%nat; [|unfold same_mates; simpl; tauto].
    eapply same_mates_trans; [apply add_optional_frame|].
    unfold same_mates. simpl. tauto. }
  destruct ((if (0 <? length opt)%nat then add_optional opt else ret tt) self1)
    as [[u|e'] self2]; simpl in Hfr.
  - destruct (((shape (header self) =? "U")%string && str_gt c1 c2)
              || ((c1 =? c2)%string && int_gt p1 p2)); [discriminate|].
    destruct (((shape (header self) =? "L")%string && str_gt c2 c1)
              || ((c1 =? c2)%string && int_lt p1 p2)); discriminate.
  - intros _. exact Hfr.
Qed.

(** X12: [add] returns normally exactly when both chromosomes are in the
    header's list, both positions are instances of [int] greater than zero,
    and every key of the optional mapping is a column of the header. *)
Lemma add_succeeds_iff :
  fst (add c1 p1 c2 p2 s1 s2 rid opt self) = Ok tt <->
  In c1 (chromosomes (header self)) /\ In c2 (chromosomes (header self)) /\
  positive_int p1 /\ positive_int p2 /\
  (forall k, In k (keys opt) -> In k (columns (header self))).
Proof.
  split.
  - intros Hok.
    assert (Hdec : forall p, positive_int p \/ ~ positive_int p).
    { intros p. rewrite <- positive_int_test.
      destruct (isinstance_int p && int_gt p (PyInt 0)); auto. }
    destruct (in_dec string_dec c1 (chromosomes (header self))) as [H1|H1];
      [|rewrite add_rejected in Hok by auto; discriminate].
    destruct (in_dec string_dec c2 (chromosomes (header self))) as [H2|H2];
      [|rewrite add_rejected in Hok by auto; discriminate].
    destruct (Hdec p1) as [H3|H3];
      [|rewrite add_rejected in Hok by auto; discriminate].
    destruct (Hdec p2) as [H4|H4];
      [|rewrite add_rejected in Hok by auto; discriminate].
    destruct (in_columns_dec opt (columns (header self))) as [Hk|Hk]; [tauto|].
    rewrite add_optional_refused in Hok by auto. discriminate.
  - intros (H1 & H2 & H3 & H4 & Hk). now rewrite add_accepted.
Qed.

End Add.

Lemma lookup_update_same (k v : string) (d : dict) :
  lookup k (update k v d) = Some v.
Proof.
  induction d as [|[k' v'] d IH]; simpl.
  - now rewrite String.eqb_refl.
  - destruct (k =? k')%string eqn:E; simpl; rewrite E; auto.
Qed.

Lemma lookup_update_other (k k' v : string) (d : dict) :
  k <> k' -> lookup k (update k' v d) = lookup k d.
Proof.
  intros Hne. apply String.eqb_neq in Hne.
  induction d as [|[k0 v0] d IH]; simpl.
  - now rewrite Hne.
  - destruct (k' =? k0)%string eqn:E; simpl.
    + apply String.eqb_eq in E; subst. now rewrite Hne.
    + now rewrite IH.
Qed.

Lemma lookup_merged_other (k : string) (kvs : dict) : forall d : dict,
  ~ In k (keys kvs) -> lookup k (merged kvs d) = lookup k d.
Proof.
  induction kvs as [|[k' v'] kvs IH]; intros d Hk; [reflexivity|].
  unfold merged in *. cbn [fold_left fst snd].
  rewrite IH by (intros Hin; apply Hk; now right).
  apply lookup_update_other. intros ->. apply Hk. now left.
Qed.

(** Every entry of a mapping is found after it was merged in. *)
Lemma lookup_merged (kvs : dict) : forall (d : dict) (k v : string),
  NoDup (keys kvs) -> In (k, v) kvs -> lookup k (merged kvs d) = Some v.
Proof.
  induction kvs as [|[k' v'] kvs IH]; intros d k v Hnd Hin; [destruct Hin|].
  inversion Hnd as [|? ? Hk' Hnd']; subst.
  unfold merged in *. cbn [fold_left fst snd].
  destruct Hin as [[= -> ->]|Hin].
  - change (lookup k (merged kvs (update k v d)) = Some v).
    rewrite lookup_merged_other by exact Hk'. apply lookup_update_same.
  - now apply IH.
Qed.

(** The reserved columns are columns of every header the constructor
    builds. *)
Lemma reserved_in_columns (ch : option (list string)) (sh so : string)
    (ga : option string) (ac : list string) (al : dict) (h : PairsHeader) :
  PairsHeader_init ch sh so ga ac al = Ok h ->
  forall k, In k reserved_columns -> In k (columns h).
Proof.
  intros H k Hk.
  destruct (init_cases ch sh so ga ac al)
    as [Hf|(l & -> & _ & _ & _ & Hok)]; [congruence|].
  rewrite Hok in H. injection H as <-.
  change (In k (reserved_columns ++ ac)). apply in_or_app. now left.
Qed.


(* ===================================================================== *)
(** ** The record: canonical order, validation, the written line *)
(* ===================================================================== *)

(** On one chromosome, [add] exchanges the mates whenever the positions
    differ, whatever the shape: the position test of the [if] and the one of
    the [elif] are not guarded by the shape. *)
Lemma exchanges_same_chromosome (sh c : string) (p1 p2 : value) :
  exchanges sh c p1 c p2 = negb (int_value p1 =? int_value p2)%Z.
Proof.
  unfold exchanges, str_gt, int_gt, int_lt.
  fold (str_lt c c). rewrite str_lt_irrefl, String.eqb_refl, !andb_false_r.
  cbn [orb andb]. rewrite Z.gtb_ltb.
  destruct (Z.ltb_spec (int_value p2) (int_value p1)),
           (Z.ltb_spec (int_value p1) (int_value p2)),
           (Z.eqb_spec (int_value p1) (int_value p2)); simpl; auto; lia.
Qed.

(** In a sorted list, a smaller name has a smaller rank. *)
Lemma rank_lt (l : list string) : forall c1 c2 : string,
  StronglySorted str_le l -> In c1 l -> In c2 l -> str_lt c1 c2 = true ->
  exists i j, rank c1 l = Some i /\ rank c2 l = Some j /\ (i < j)%nat.
Proof.
  induction l as [|x l IH]; intros c1 c2 Hs H1 H2 Hlt; [destruct H1|].
  inversion Hs as [|? ? Hs' Hx]; subst. rewrite Forall_forall in Hx.
  assert (Hne : c2 <> x).
  { intros ->. destruct H1 as [->|H1].
    - rewrite str_lt_irrefl in Hlt. discriminate.
    - specialize (Hx c1 H1). unfold str_le in Hx. congruence. }
  assert (H2' : In c2 l) by (destruct H2 as [->|H2]; [contradiction | exact H2]).
  cbn [rank]. apply String.eqb_neq in Hne. rewrite Hne.
  destruct (c1 =? x)%string eqn:E1.
  - assert (exists j, rank c2 l = Some j) as [j Hj].
    { clear - H2'. induction l as [|y l IHl]; [destruct H2'|].
      cbn [rank]. destruct (c2 =? y)%string eqn:E; [eauto|].
      apply String.eqb_neq in E.
      destruct H2' as [->|Hin]; [contradiction|].
      destruct (IHl Hin) as [j ->]. simpl. eauto. }
    rewrite Hj. exists 0%nat, (S j). simpl. repeat split; lia.
  - apply String.eqb_neq in E1.
    assert (H1' : In c1 l) by (destruct H1 as [->|H1]; [contradiction | exact H1]).
    destruct (IH c1 c2 Hs' H1' H2' Hlt) as (i & j & -> & -> & Hij).
    exists (S i), (S j). simpl. repeat split; lia.
Qed.

Lemma init_strongly_sorted (ch : option (list string)) (sh so : string)
    (ga : option string) (ac : list string) (al : dict) (h : PairsHeader) :
  PairsHeader_init ch sh so ga ac al = Ok h ->
  StronglySorted str_le (chromosomes h) /\ shape h = sh.
Proof.
  intros H.
  destruct (init_cases ch sh so ga ac al)
    as [Hf|(l & -> & _ & _ & _ & Hok)]; [congruence|].
  rewrite Hok in H. injection H as <-. split; [|reflexivity].
  apply Sorted_StronglySorted; [exact str_le_trans | apply list_sort_sorted].
Qed.

(** X14: where the order the claim C1 asks for does hold: the two mates on
    different chromosomes, the header built by the constructor.  After [add]
    the first locus is before the second for shape ['U'] and after it for
    shape ['L']. *)
Lemma add_orders_distinct_chromosomes (ch : option (list string))
    (sh so : string) (ga : option string) (ac : list string) (al : dict)
    (self : PairsLine) (c1 : string) (p1 : value) (c2 : string) (p2 : value)
    (s1 s2 rid : string) (opt : dict) :
  PairsHeader_init ch sh so ga ac al = Ok (header self) ->
  In c1 (chromosomes (header self)) -> In c2 (chromosomes (header self)) ->
  c1 <> c2 -> positive_int p1 -> positive_int p2 ->
  (forall k, In k (keys opt) -> In k (columns (header self))) ->
  exists (self' : PairsLine) (a : string) (pa : value) (b : string) (pb : value),
    add c1 p1 c2 p2 s1 s2 rid opt self = (Ok tt, self') /\
    chr1 self' = Some a /\ pos1 self' = Some pa /\
    chr2 self' = Some b /\ pos2 self' = Some pb /\
    (sh = "U" -> locus_le (header self) a pa b pb = true) /\
    (sh = "L" -> locus_le (header self) b pb a pa = true).
Proof.
  intros Hinit H1 H2 Hne Hp1 Hp2 Hk.
  destruct (init_strongly_sorted _ _ _ _ _ _ _ Hinit) as [Hs Hsh].
  assert (Hlt : forall x y, In x (chromosomes (header self)) ->
                  In y (chromosomes (header self)) -> str_lt x y = true ->
                  forall px py, locus_le (header self) x px y py = true).
  { intros x y Hx Hy Hxy px py. unfold locus_le.
    destruct (rank_lt _ x y Hs Hx Hy Hxy) as (i & j & -> & -> & Hij).
    apply Nat.ltb_lt in Hij. now rewrite Hij. }
  assert (Hcmp : str_lt c1 c2 = true \/ str_lt c2 c1 = true).
  { destruct (str_lt c1 c2) eqn:E1; auto. destruct (str_lt c2 c1) eqn:E2; auto.
    exfalso. apply Hne. now apply str_lt_connex. }
  pose proof (add_accepted self c1 p1 c2 p2 s1 s2 rid opt H1 H2 Hp1 Hp2 Hk) as Hadd.
  unfold exchanges in Hadd. rewrite Hsh in Hadd.
  change (str_gt c1 c2) with (str_lt c2 c1) in Hadd.
  change (str_gt c2 c1) with (str_lt c1 c2) in Hadd.
  apply String.eqb_neq in Hne. rewrite Hne in Hadd. cbn [andb] in Hadd.
  rewrite !orb_false_r in Hadd.
  destruct ((sh =? "U")%string && str_lt c2 c1 || (sh =? "L")%string && str_lt c1 c2)
    eqn:Hex.
  - exists (mkPairsLine (header self) (Some rid) (Some (merged opt []))
              (Some c2) (Some c1) (Some p2) (Some p1) (Some s2) (Some s1)),
           c2, p2, c1, p1.
    repeat split; auto.
    + intros ->. cbn in Hex. rewrite orb_false_r in Hex. now apply Hlt.
    + intros ->. cbn in Hex. now apply Hlt.
  - exists (mkPairsLine (header self) (Some rid) (Some (merged opt []))
              (Some c1) (Some c2) (Some p1) (Some p2) (Some s1) (Some s2)),
           c1, p1, c2, p2.
    repeat split; auto.
    + intros ->. cbn in Hex. rewrite orb_false_r in Hex.
      destruct Hcmp as [Hc|Hc]; [now apply Hlt | congruence].
    + intros ->. cbn in Hex.
      destruct Hcmp as [Hc|Hc]; [congruence | now apply Hlt].
Qed.

(** X15: on one chromosome with different positions, [add] stores the
    mates exchanged, whatever the shape; so the order C1 asks for holds only
    when the mates were given in the opposite order. *)
Lemma add_same_chromosome_exchanges (self : PairsLine) (c : string)
    (p1 p2 : value) (s1 s2 rid : string) (opt : dict) :
  In c (chromosomes (header self)) ->
  positive_int p1 -> positive_int p2 -> int_value p1 <> int_value p2 ->
  (forall k, In k (keys opt) -> In k (columns (header self))) ->
  add c p1 c p2 s1 s2 rid opt self =
  (Ok tt,
   mkPairsLine (header self) (Some rid) (Some (merged opt []))
     (Some c) (Some c) (Some p2) (Some p1) (Some s2) (Some s1)).
Proof.
  intros Hc H1 H2 Hne Hk.
  rewrite add_accepted by auto.
  rewrite exchanges_same_chromosome.
  apply Z.eqb_neq in Hne. now rewrite Hne.
Qed.

(** The header of shape ['L'] used below is one the constructor builds. *)
Lemma lower_header_ok :
  PairsHeader_init (Some ["chr1"; "chr2"]) "L" default_sorted None [] []
  = Ok Demo.lower_hdr.
Proof. reflexivity. Qed.

(** C1: with shape ['U'] the stored first locus should not come after the
    second, and with shape ['L'] not before it.  The program breaks this on
    one chromosome.  The second [add] of the [__main__] block, on the header
    of shape ['U'], stores chr2:5000 before chr2:4000; and on a header of
    shape ['L'], [add('chr1', 2000, 'chr1', 1000)] stores chr1:1000 before
    chr1:2000. *)
Theorem add_same_chromosome_misordered :
  (shape Demo.hdr = "U" /\
   Demo.add_second Demo.line2 =
   (Ok tt,
    mkPairsLine Demo.hdr (Some ".")
      (Some [("mismatch", "chr2:4916:G>C, chr2:5106:C>T")])
      (Some "chr2") (Some "chr2") (Some (PyInt 5000)) (Some (PyInt 4000))
      (Some "-") (Some "+")) /\
   locus_le Demo.hdr "chr2" (PyInt 5000) "chr2" (PyInt 4000) = false)
  /\
  (shape Demo.lower_hdr = "L" /\
   add "chr1" (PyInt 2000) "chr1" (PyInt 1000) default_strand default_strand
     default_readID [] (PairsLine_init Demo.lower_hdr) =
   (Ok tt,
    mkPairsLine Demo.lower_hdr (Some ".") (Some [])
      (Some "chr1") (Some "chr1") (Some (PyInt 1000)) (Some (PyInt 2000))
      (Some ".") (Some ".")) /\
   locus_le Demo.lower_hdr "chr1" (PyInt 2000) "chr1" (PyInt 1000) = false).
Proof. repeat split; reflexivity. Qed.

(** C2: when both mates are on the same chromosome at the same position,
    [add] with acceptable arguments succeeds and stores mate 1 and mate 2 as
    they were given, whatever the shape of the header. *)
Theorem add_tie_keeps_mates (self : PairsLine) (c : string) (p1 p2 : value)
    (s1 s2 rid : string) (opt : dict) :
  In c (chromosomes (header self)) ->
  positive_int p1 -> positive_int p2 -> int_value p1 = int_value p2 ->
  (forall k, In k (keys opt) -> In k (columns (header self))) ->
  exists self',
    add c p1 c p2 s1 s2 rid opt self = (Ok tt, self') /\
    chr1 self' = Some c /\ pos1 self' = Some p1 /\ strand1 self' = Some s1 /\
    chr2 self' = Some c /\ pos2 self' = Some p2 /\ strand2 self' = Some s2.
Proof.
  intros Hc H1 H2 Heq Hk.
  eexists. split; [apply add_accepted; auto|].
  rewrite exchanges_same_chromosome, Heq, Z.eqb_refl. cbn. tauto.
Qed.

Lemma add_tie_keeps_mates_witness :
  exists self',
    add "chr2" (PyInt 4000) "chr2" (PyInt 4000) "+" "-" "read1"
      [("mismatch", "none")] (PairsLine_init Demo.hdr) = (Ok tt, self') /\
    chr1 self' = Some "chr2" /\ pos1 self' = Some (PyInt 4000) /\
    strand1 self' = Some "+" /\
    chr2 self' = Some "chr2" /\ pos2 self' = Some (PyInt 4000) /\
    strand2 self' = Some "-".
Proof.
  apply (add_tie_keeps_mates (PairsLine_init Demo.hdr) "chr2" (PyInt 4000)
           (PyInt 4000) "+" "-" "read1" [("mismatch", "none")]).
  - simpl. tauto.
  - split; [reflexivity | reflexivity].
  - split; [reflexivity | reflexivity].
  - reflexivity.
  - intros k [<-|[]]. simpl. tauto.
Defined.

(** C3, the claim as stated fails: after the first [add] of the scenario,
    [printline] succeeds and the text it writes is not the seven fields
    followed by a tab. *)
Lemma scenario_first_line_not_tab_ended :
  Demo.add_first (PairsLine_init Demo.hdr) = (Ok tt, Demo.line1) /\
  fst (printline Demo.line1 []) = Ok tt /\
  (Demo.printed Demo.line1
   =? tsv ["."; "chr1"; "1000"; "chr2"; "3000"; "."; "."] ++ tab)%string = false.
Proof. repeat split; reflexivity. Qed.

(** C3 (amended): for the header of the scenario, after
    [add('chr1', 1000, 'chr2', 3000)] the optional mapping is empty and
    [printline] writes the seven fields separated by tabs and ended by a
    newline, with no tab after the last field; after the further
    [add_optional({'mismatch': 'chr1:1070:A>T'})] it writes the seven fields
    and the value, separated by tabs and ended by a newline. *)
Theorem scenario_lines :
  Demo.make_header = Ok Demo.hdr /\
  Demo.add_first (PairsLine_init Demo.hdr) = (Ok tt, Demo.line1) /\
  optional Demo.line1 = Some [] /\
  printline Demo.line1 [] =
    (Ok tt, [tsv ["."; "chr1"; "1000"; "chr2"; "3000"; "."; "."]; nl]) /\
  Demo.printed Demo.line1 =
    (tsv ["."; "chr1"; "1000"; "chr2"; "3000"; "."; "."] ++ nl)%string /\
  Demo.add_mismatch Demo.line1 = (Ok tt, Demo.line2) /\
  printline Demo.line2 [] =
    (Ok tt, [tsv ["."; "chr1"; "1000"; "chr2"; "3000"; "."; "."];
             (tab ++ "chr1:1070:A>T")%string; nl]) /\
  Demo.printed Demo.line2 =
    (tsv ["."; "chr1"; "1000"; "chr2"; "3000"; "."; "."; "chr1:1070:A>T"]
     ++ nl)%string.
Proof. repeat split; reflexivity. Qed.

(** C5, the claim as stated fails: on an object fresh from the constructor,
    which has no optional mapping yet, [add_optional] with a reserved column
    name as key does not succeed, and with an accepted key followed by a key
    that is no column it raises [AttributeError], not [AssertionError]. *)
Lemma add_optional_fresh_record_raises :
  Demo.make_header = Ok Demo.hdr /\
  In "chr1" reserved_columns /\
  add_optional [("chr1", "chrX")] (PairsLine_init Demo.hdr)
    = (Raise AttributeError, PairsLine_init Demo.hdr) /\
  contains "quality" (columns Demo.hdr) = false /\
  add_optional [("mismatch", "A>T"); ("quality", "60")] (PairsLine_init Demo.hdr)
    = (Raise AttributeError, PairsLine_init Demo.hdr).
Proof. repeat split; try reflexivity. simpl. tauto. Qed.

(** C5 (amended): on a record that has its optional mapping (one on which
    [add] has run), [add_optional] raises [AssertionError] exactly when some
    key of the mapping is not one of the header's columns; otherwise it
    returns normally, changes nothing but the optional mapping, and the
    optional mapping of the record then holds every entry of the argument.
    On a header built by the constructor this holds in particular for a key
    that is one of the seven reserved column names: the call returns
    normally and the record's optional mapping holds the entry. *)
Theorem add_optional_validation (self : PairsLine) (d : dict) :
  optional self = Some d ->
  (forall kvs,
     fst (add_optional kvs self) = Raise AssertionError <->
     exists k, In k (keys kvs) /\ ~ In k (columns (header self)))
  /\
  (forall kvs,
     (forall k, In k (keys kvs) -> In k (columns (header self))) ->
     exists d',
       add_optional kvs self = (Ok tt, set_optional d' self) /\
       optional (snd (add_optional kvs self)) = Some d' /\
       (NoDup (keys kvs) -> forall k v, In (k, v) kvs -> lookup k d' = Some v))
  /\
  (forall ch sh so ga ac al k v,
     PairsHeader_init ch sh so ga ac al = Ok (header self) ->
     In k reserved_columns ->
     exists d',
       add_optional [(k, v)] self = (Ok tt, set_optional d' self) /\
       optional (snd (add_optional [(k, v)] self)) = Some d' /\
       lookup k d' = Some v).
Proof.
  intros Hopt.
  assert (Hok : forall kvs,
             (forall k, In k (keys kvs) -> In k (columns (header self))) ->
             exists d',
               add_optional kvs self = (Ok tt, set_optional d' self) /\
               optional (snd (add_optional kvs self)) = Some d' /\
               (NoDup (keys kvs) ->
                forall k v, In (k, v) kvs -> lookup k d' = Some v)).
  { intros kvs Hk. exists (merged kvs d).
    pose proof (add_optional_ok kvs self d Hopt Hk) as Heq.
    split; [exact Heq|]. split; [now rewrite Heq|].
    intros Hnd k v Hin. now apply lookup_merged. }
  split; [|split; [exact Hok|]].
  - intros kvs. split.
    + intros Hr.
      destruct (in_columns_dec kvs (columns (header self))) as [Hall|Hbad]; auto.
      destruct (Hok kvs Hall) as (d' & Heq & _).
      rewrite Heq in Hr. discriminate.
    + intros Hbad. now apply (add_optional_fail kvs self d).
  - intros ch sh so ga ac al k v Hinit Hres.
    destruct (Hok [(k, v)]) as (d' & Heq & Hstored & Hl).
    + intros k' [<-|[]]. eapply reserved_in_columns; eauto.
    + exists d'. split; [exact Heq|]. split; [exact Hstored|].
      apply Hl; [repeat constructor; simpl; tauto | now left].
Qed.

Lemma add_optional_validation_witness :
  (fst (add_optional [("mismatch", "A>T"); ("quality", "60")] Demo.line1)
   = Raise AssertionError <->
   exists k, In k ["mismatch"; "quality"] /\ ~ In k (columns Demo.hdr))
  /\
  exists d',
    add_optional [("chr1", "chrX")] Demo.line1 = (Ok tt, set_optional d' Demo.line1)
    /\ optional (snd (add_optional [("chr1", "chrX")] Demo.line1)) = Some d'
    /\ lookup "chr1" d' = Some "chrX".
Proof.
  pose proof (add_optional_validation Demo.line1 [] eq_refl) as (H1 & _ & H3).
  split.
  - exact (H1 [("mismatch", "A>T"); ("quality", "60")]).
  - apply (H3 (Some ["chr1"; "chr2"]) default_shape default_sorted (Some "hg19")
              ["mismatch"] [] "chr1" "chrX").
    + reflexivity.
    + simpl. tauto.
Defined.

(** Before the first [add] the object has no optional mapping, and
    [add_optional] with an accepted key raises [AttributeError]. *)
Example add_optional_before_add :
  add_optional [("mismatch", "A>T")] (PairsLine_init Demo.hdr)
  = (Raise AttributeError, PairsLine_init Demo.hdr).
Proof. reflexivity. Qed.

Lemma not_positive_int (p : value) :
  isinstance_int p = false \/ (int_value p <= 0)%Z -> ~ positive_int p.
Proof. unfold positive_int. intros [H|H] [H1 H2]; [congruence | lia]. Qed.

(** C6, the claim as stated fails: with both chromosomes in the header's
    list and both positions positive integers, [add] still raises when the
    optional mapping has a key that is not a column of the header. *)
Lemma add_unknown_column_raises :
  In "chr1" (chromosomes Demo.hdr) /\ In "chr2" (chromosomes Demo.hdr) /\
  positive_int (PyInt 1000) /\ positive_int (PyInt 3000) /\
  fst (Demo.add_unknown_column (PairsLine_init Demo.hdr)) = Raise AssertionError.
Proof. unfold positive_int. simpl. repeat split; auto. Qed.

(** C6 (amended): [add] raises [AssertionError] whenever [chr1] or [chr2]
    is not in the header's chromosome list, or [pos1] or [pos2] is not an
    instance of [int] or is zero or negative; when all four are acceptable
    and every key of the optional mapping is a column of the header, [add]
    does not raise. *)
Theorem add_validation (self : PairsLine) (c1 : string) (p1 : value)
    (c2 : string) (p2 : value) (s1 s2 rid : string) (opt : dict) :
  (~ In c1 (chromosomes (header self)) \/ ~ In c2 (chromosomes (header self)) \/
   (isinstance_int p1 = false \/ (int_value p1 <= 0)%Z) \/
   (isinstance_int p2 = false \/ (int_value p2 <= 0)%Z) ->
   fst (add c1 p1 c2 p2 s1 s2 rid opt self) = Raise AssertionError)
  /\
  (In c1 (chromosomes (header self)) -> In c2 (chromosomes (header self)) ->
   positive_int p1 -> positive_int p2 ->
   (forall k, In k (keys opt) -> In k (columns (header self))) ->
   fst (add c1 p1 c2 p2 s1 s2 rid opt self) = Ok tt).
Proof.
  split.
  - intros H. rewrite add_rejected; [reflexivity|].
    destruct H as [H|[H|[H|H]]]; auto using not_positive_int.
  - intros H1 H2 H3 H4 Hk. now rewrite add_accepted.
Qed.

Lemma add_validation_witness :
  fst (add "chrM" (PyInt 1000) "chr2" (PyInt 3000) "." "." "." []
         (PairsLine_init Demo.hdr)) = Raise AssertionError
  /\ fst (add "chr1" (PyInt 1000) "chr2" (PyInt 0) "." "." "." []
            (PairsLine_init Demo.hdr)) = Raise AssertionError
  /\ fst (add "chr1" (PyOther "1000.5") "chr2" (PyInt 3000) "." "." "." []
            (PairsLine_init Demo.hdr)) = Raise AssertionError
  /\ fst (add "chr1" (PyInt 1000) "chr2" (PyInt 3000) "+" "-" "read1"
            [("mismatch", "chr1:1070:A>T")] (PairsLine_init Demo.hdr)) = Ok tt.
Proof.
  split; [|split; [|split]].
  - apply (proj1 (add_validation (PairsLine_init Demo.hdr) "chrM" (PyInt 1000)
                    "chr2" (PyInt 3000) "." "." "." [])).
    left. simpl. intuition discriminate.
  - apply (proj1 (add_validation (PairsLine_init Demo.hdr) "chr1" (PyInt 1000)
                    "chr2" (PyInt 0) "." "." "." [])).
    right; right; right; right. simpl. lia.
  - apply (proj1 (add_validation (PairsLine_init Demo.hdr) "chr1"
                    (PyOther "1000.5") "chr2" (PyInt 3000) "." "." "." [])).
    right; right; left; left. reflexivity.
  - apply (proj2 (add_validation (PairsLine_init Demo.hdr) "chr1" (PyInt 1000)
                    "chr2" (PyInt 3000) "+" "-" "read1"
                    [("mismatch", "chr1:1070:A>T")])).
    + simpl. tauto.
    + simpl. tauto.
    + split; reflexivity.
    + split; reflexivity.
    + intros k [<-|[]]. simpl. tauto.
Defined.

(** C10, the claim as stated fails: on the record of the scenario, an
    [add] that passes the four checks and names an unknown optional column
    raises [AssertionError] after it has replaced [readID] and emptied the
    optional mapping. *)
Lemma add_unknown_column_overwrites :
  readID Demo.line2 = Some "." /\
  optional Demo.line2 = Some [("mismatch", "chr1:1070:A>T")] /\
  Demo.add_unknown_column Demo.line2 =
  (Raise AssertionError,
   mkPairsLine Demo.hdr (Some "read7") (Some [])
     (Some "chr1") (Some "chr2") (Some (PyInt 1000)) (Some (PyInt 3000))
     (Some ".") (Some ".")).
Proof. repeat split; reflexivity. Qed.

(** C10 (amended): the four checks of [add] come before any assignment, so
    when one of them fails [add] raises [AssertionError] and the whole
    record is as it was before the call; and whenever [add] raises, the
    header and [chr1], [pos1], [strand1], [chr2], [pos2], [strand2] are as
    they were before the call. *)
Theorem add_failure_frame (self : PairsLine) (c1 : string) (p1 : value)
    (c2 : string) (p2 : value) (s1 s2 rid : string) (opt : dict) :
  (~ In c1 (chromosomes (header self)) \/ ~ In c2 (chromosomes (header self)) \/
   ~ positive_int p1 \/ ~ positive_int p2 ->
   add c1 p1 c2 p2 s1 s2 rid opt self = (Raise AssertionError, self))
  /\
  (forall e, fst (add c1 p1 c2 p2 s1 s2 rid opt self) = Raise e ->
     same_mates (snd (add c1 p1 c2 p2 s1 s2 rid opt self)) self).
Proof.
  split; [apply add_rejected | apply add_raise_frame].
Qed.

Lemma add_failure_frame_witness :
  add "chr1" (PyInt 1000) "chr3" (PyInt 3000) "." "." "read7" [] Demo.line2
  = (Raise AssertionError, Demo.line2)
  /\ same_mates (snd (Demo.add_unknown_column Demo.line2)) Demo.line2.
Proof.
  split.
  - apply (proj1 (add_failure_frame Demo.line2 "chr1" (PyInt 1000) "chr3"
                    (PyInt 3000) "." "." "read7" [])).
    right; left. simpl. intuition discriminate.
  - apply (proj2 (add_failure_frame Demo.line2 "chr1" (PyInt 1000) "chr2"
                    (PyInt 3000) default_strand default_strand "read7"
                    [("quality", "60")]) AssertionError).
    reflexivity.
Defined.

(* ===================================================================== *)
(** ** Further properties of the header *)
(* ===================================================================== *)

Section DictFacts.

Lemma keys_update (k v : string) (d : dict) :
  keys (update k v d)
  = keys d ++ (if contains k (keys d) then [] else [k]).
Proof.
  induction d as [|[k' v'] d IH]; [reflexivity|].
  cbn [update keys map fst contains].
  destruct (k =? k')%string; cbn [orb map fst].
  - now rewrite app_nil_r.
  - fold (keys d). fold (keys (update k v d)). now rewrite IH.
Qed.

Lemma update_new (k v : string) (d : dict) :
  ~ In k (keys d) -> update k v d = d ++ [(k, v)].
Proof.
  induction d as [|[k' v'] d IH]; intros Hk; [reflexivity|].
  cbn [update]. destruct (k =? k')%string eqn:E.
  - apply String.eqb_eq in E. subst. exfalso. apply Hk. now left.
  - rewrite IH; [reflexivity | intros Hin; apply Hk; now right].
Qed.

(** Merging keeps the keys already there in their places and adds the new
    ones after them. *)
Lemma keys_merged (kvs : dict) : forall d : dict,
  NoDup (keys d) ->
  exists new,
    keys (merged kvs d) = keys d ++ new /\ NoDup (keys d ++ new) /\
    (forall k, In k new -> In k (keys kvs)) /\
    (forall k, In k (keys kvs) -> In k (keys d ++ new)).
Proof.
  induction kvs as [|[k v] kvs IH]; intros d Hnd.
  - exists []. rewrite app_nil_r. repeat split; auto; intros k [].
  - unfold merged in *. cbn [fold_left fst snd].
    assert (Hnd' : NoDup (keys (update k v d))).
    { rewrite keys_update. destruct (contains k (keys d)) eqn:E.
      - now rewrite app_nil_r.
      - apply contains_false in E. apply NoDup_app; auto.
        + repeat constructor. intros [].
        + intros a Ha [<-|[]]. contradiction. }
    destruct (IH _ Hnd') as (new & Hk & Hn & Hsub & Hall).
    rewrite keys_update in Hk, Hn, Hall. rewrite <- app_assoc in Hk, Hn, Hall.
    exists ((if contains k (keys d) then [] else [k]) ++ new).
    repeat split; auto.
    + intros k' Hin. apply in_app_or in Hin as [Hin|Hin].
      * destruct (contains k (keys d)); [destruct Hin|].
        destruct Hin as [<-|[]]. now left.
      * right. now apply Hsub.
    + intros k' [<-|Hin]; [|now apply Hall].
      destruct (contains k (keys d)) eqn:E.
      * apply contains_In in E. apply in_or_app. now left.
      * apply in_or_app. right. now left.
Qed.

(** Merging entries with new and distinct keys appends them. *)
Lemma merged_new (kvs : dict) : forall d : dict,
  NoDup (keys kvs) -> (forall k, In k (keys kvs) -> ~ In k (keys d)) ->
  merged kvs d = d ++ kvs.
Proof.
  induction kvs as [|[k v] kvs IH]; intros d Hnd Hnew.
  - unfold merged. simpl. now rewrite app_nil_r.
  - inversion Hnd as [|? ? Hk Hnd']; subst.
    unfold merged in *. cbn [fold_left fst snd].
    rewrite update_new by (apply Hnew; now left).
    rewrite IH; auto.
    + now rewrite <- app_assoc.
    + intros k' Hin. unfold keys. rewrite map_app, in_app_iff.
      intros [Hd|[<-|[]]]; [apply (Hnew k'); auto; now right | contradiction].
Qed.

End DictFacts.

(** X1: a header the constructor builds has as columns the seven reserved
    names followed by the additional columns in the order given, and no
    column name occurs twice. *)
Theorem init_columns (ch : option (list string)) (sh so : string)
    (ga : option string) (ac : list string) (al : dict) (h : PairsHeader) :
  PairsHeader_init ch sh so ga ac al = Ok h ->
  columns h = reserved_columns ++ ac /\
  firstn 7 (columns h) = reserved_columns /\
  NoDup (columns h).
Proof.
  intros H.
  destruct (init_cases ch sh so ga ac al)
    as [Hf|(l & -> & _ & [Hc Hnd] & _ & Hok)]; [congruence|].
  rewrite Hok in H. injection H as <-.
  change (columns _) with (reserved_columns ++ ac).
  repeat split; auto.
  apply NoDup_app; auto.
  - unfold reserved_columns.
    repeat (constructor; [simpl; intuition discriminate|]). constructor.
  - intros a Ha Hin. exact (Hc a Hin Ha).
Qed.

Lemma init_columns_witness :
  PairsHeader_init (Some ["chr1"; "chr2"]) "U" default_sorted (Some "hg19")
    ["mismatch"; "quality"] [] = Ok
    (mkPairsHeader "U" default_sorted ["chr1"; "chr2"] (Some "hg19")
       (reserved_columns ++ ["mismatch"; "quality"]) [])
  /\ NoDup (reserved_columns ++ ["mismatch"; "quality"]).
Proof.
  split; [reflexivity|].
  apply (init_columns (Some ["chr1"; "chr2"]) "U" default_sorted (Some "hg19")
           ["mismatch"; "quality"] []
           (mkPairsHeader "U" default_sorted ["chr1"; "chr2"] (Some "hg19")
              (reserved_columns ++ ["mismatch"; "quality"]) [])).
  reflexivity.
Defined.

(** X2: a header the constructor builds holds the additional lines it was
    given, in the same order (the keys of a dictionary being distinct), and
    none of their keys is a reserved header key. *)
Theorem init_additional_lines (ch : option (list string)) (sh so : string)
    (ga : option string) (ac : list string) (al : dict) (h : PairsHeader) :
  PairsHeader_init ch sh so ga ac al = Ok h ->
  NoDup (keys al) ->
  additional_lines h = al /\
  (forall k, In k (keys (additional_lines h)) -> ~ In k reserved_header_keys).
Proof.
  intros H Hnd.
  destruct (init_cases ch sh so ga ac al)
    as [Hf|(l & -> & _ & _ & Hl & Hok)]; [congruence|].
  rewrite Hok in H. injection H as <-.
  change (additional_lines _) with (merged al []).
  rewrite merged_new by (auto; intros k _ []).
  split; [reflexivity | exact Hl].
Qed.

Lemma init_additional_lines_witness :
  PairsHeader_init (Some ["chr1"; "chr2"]) "U" default_sorted (Some "hg19")
    ["mismatch"] [("creator", "haha"); ("date", "today")] = Ok
    (mkPairsHeader "U" default_sorted ["chr1"; "chr2"] (Some "hg19")
       (reserved_columns ++ ["mismatch"]) [("creator", "haha"); ("date", "today")])
  /\ ~ In "creator" reserved_header_keys.
Proof.
  split; [reflexivity|].
  refine (proj2 (init_additional_lines (Some ["chr1"; "chr2"]) "U" default_sorted
           (Some "hg19") ["mismatch"] [("creator", "haha"); ("date", "today")]
           (mkPairsHeader "U" default_sorted ["chr1"; "chr2"] (Some "hg19")
              (reserved_columns ++ ["mismatch"])
              [("creator", "haha"); ("date", "today")]) _ _) "creator" _).
  - reflexivity.
  - repeat (constructor; [simpl; intuition discriminate|]). constructor.
  - simpl. tauto.
Defined.

(** X3: the constructor does not depend on the order in which the
    chromosomes are given: two arrangements of the same names build the same
    header or raise alike; and a list that is already sorted is stored
    unchanged. *)
Theorem init_chromosome_order_irrelevant (l l' : list string) (sh so : string)
    (ga : option string) (ac : list string) (al : dict) :
  Permutation l l' ->
  PairsHeader_init (Some l) sh so ga ac al = PairsHeader_init (Some l') sh so ga ac al
  /\
  (Sorted str_le l ->
   forall h, PairsHeader_init (Some l) sh so ga ac al = Ok h -> chromosomes h = l).
Proof.
  intros Hp.
  assert (Hs : list_sort l = list_sort l').
  { apply list_sort_unique; [|apply list_sort_sorted].
    eapply perm_trans; [exact Hp | apply list_sort_perm]. }
  split.
  - destruct (init_cases (Some l) sh so ga ac al)
      as [Hf|(l0 & [= <-] & Hsh & [Hc Hnd] & Hl & Hok)].
    + destruct (init_cases (Some l') sh so ga ac al)
        as [Hf'|(l0 & [= <-] & Hsh & [Hc Hnd] & Hl & Hok)]; [congruence|].
      rewrite (init_ok l sh so ga ac al) in Hf by auto. discriminate.
    + rewrite Hok, (init_ok l' sh so ga ac al) by auto. now rewrite Hs.
  - intros Hsorted h H.
    destruct (init_cases (Some l) sh so ga ac al)
      as [Hf|(l0 & [= <-] & _ & _ & _ & Hok)]; [congruence|].
    rewrite Hok in H. injection H as <-. cbn [chromosomes].
    apply list_sort_unique; auto.
Qed.

Lemma init_chromosome_order_irrelevant_witness :
  PairsHeader_init (Some ["chrX"; "chr2"; "chr10"]) "U" default_sorted None [] []
  = PairsHeader_init (Some ["chr10"; "chr2"; "chrX"]) "U" default_sorted None [] [].
Proof.
  apply (init_chromosome_order_irrelevant ["chrX"; "chr2"; "chr10"]
           ["chr10"; "chr2"; "chrX"] "U" default_sorted None [] []).
  apply (Permutation_rev ["chrX"; "chr2"; "chr10"]).
Defined.

(** X4: [format_additional_lines] returns the additional lines, one
    [#key : value] line each in the order of the dictionary, and returns the
    empty string exactly when there are none. *)
Theorem format_additional_lines_text (h : PairsHeader) :
  format_additional_lines h =
    String.concat ""
      (map (fun kv => header_line (fst kv) (snd kv)) (additional_lines h))
  /\ (format_additional_lines h = "" <-> additional_lines h = []).
Proof.
  split; [apply format_additional_lines_block|].
  rewrite format_additional_lines_block, <- String.eqb_eq, additional_block_empty.
  destruct (additional_lines h); split; congruence.
Qed.

(* ===================================================================== *)
(** ** Further properties of the written line *)
(* ===================================================================== *)

Section LineText.

Lemma content_app (a b : sink) :
  content (a ++ b) = (content a ++ content b)%string.
Proof.
  unfold content. induction a as [|x a IH]; [reflexivity|].
  rewrite <- app_comm_cons, !concat_cons, IH. now rewrite append_assoc.
Qed.

(** Tab-separated fields: the first field, then every other one after a
    tab. *)
Lemma tsv_cons (x : string) (vs : list string) :
  tsv (x :: vs) = (x ++ String.concat "" (map (fun v => tab ++ v) vs))%string.
Proof.
  unfold tsv. revert x. induction vs as [|v vs IH]; intros x.
  - simpl. now rewrite append_empty_r.
  - change (String.concat tab (x :: v :: vs))
      with (x ++ tab ++ String.concat tab (v :: vs))%string.
    rewrite IH. cbn [map]. rewrite concat_cons, append_assoc. reflexivity.
Qed.

Lemma tsv_app (x : string) (l vs : list string) :
  tsv ((x :: l) ++ vs)
  = (tsv (x :: l) ++ String.concat "" (map (fun v => tab ++ v) vs))%string.
Proof.
  rewrite <- app_comm_cons, !tsv_cons, map_app.
  fold (content (map (fun v => (tab ++ v)%string) l
                 ++ map (fun v => (tab ++ v)%string) vs)).
  rewrite content_app. unfold content. now rewrite append_assoc.
Qed.

Lemma lookup_app_new (k v : string) (d1 d2 : dict) :
  ~ In k (keys d1) -> lookup k (d1 ++ (k, v) :: d2) = Some v.
Proof.
  induction d1 as [|[k' v'] d1 IH]; intros Hk; simpl.
  - now rewrite String.eqb_refl.
  - destruct (k =? k')%string eqn:E.
    + apply String.eqb_eq in E. subst. exfalso. apply Hk. now left.
    + apply IH. intros Hin. apply Hk. now right.
Qed.

(** The loop of [printline] over the keys of the optional mapping: no key
    is missing, and the values are written in the order of the mapping. *)
Lemma print_optional (d2 : dict) : forall (d1 : dict) (out : sink),
  NoDup (keys (d1 ++ d2)) ->
  for_each (keys d2) (fun opt =>
    match lookup opt (d1 ++ d2) with
    | Some v => write (tab ++ v)%string
    | None => raise KeyError
    end) out
  = (Ok tt, out ++ map (fun kv => (tab ++ snd kv)%string) d2).
Proof.
  induction d2 as [|[k v] d2 IH]; intros d1 out Hnd.
  - simpl. now rewrite app_nil_r.
  - assert (Hk : ~ In k (keys d1)).
    { unfold keys in *. rewrite map_app in Hnd. cbn [map fst] in Hnd.
      apply NoDup_remove_2 in Hnd. intros Hin. apply Hnd.
      apply in_or_app. now left. }
    cbn [keys map fst for_each]. step.
    rewrite lookup_app_new by exact Hk. unfold write at 1. step.
    specialize (IH (d1 ++ [(k, v)]) (out ++ [(tab ++ v)%string])).
    rewrite <- app_assoc in IH. cbn [app] in IH.
    fold (keys d2). rewrite IH by exact Hnd.
    cbn [map snd]. now rewrite <- app_assoc.
Qed.

(** [printline] on an object with all its attributes. *)
Lemma printline_complete (h : PairsHeader) (r : string) (d : dict)
    (a b : string) (pa pb : value) (sa sb : string) (out : sink) :
  NoDup (keys d) ->
  printline (mkPairsLine h (Some r) (Some d) (Some a) (Some b) (Some pa)
               (Some pb) (Some sa) (Some sb)) out
  = (Ok tt,
     out ++ [tsv [r; a; str pa; b; str pb; sa; sb]]
     ++ (if (7 <? length (columns h))%nat
         then map (fun kv => (tab ++ snd kv)%string) d else [])
     ++ [nl]).
Proof.
  intros Hnd. unfold printline. cbn [readID chr1 chr2 pos1 pos2 strand1 strand2
    optional header]. step. unfold write at 1. step.
  destruct (7 <? length (columns h))%nat.
  - step. rewrite (print_optional d [] _ Hnd). unfold write. step.
    now rewrite <- !app_assoc.
  - unfold write. step. now rewrite <- !app_assoc.
Qed.

End LineText.

(** X5: after an [add] that returns normally, [printline] returns normally
    and appends one line to the sink: the read identifier and the stored
    mates, then, when the header has more than the seven reserved columns,
    the values of the optional mapping in the order of the mapping, all
    separated by tabs and ended by a newline.  The stored mates are the ones
    given, in that order or exchanged. *)
Theorem printline_after_add (self : PairsLine) (c1 : string) (p1 : value)
    (c2 : string) (p2 : value) (s1 s2 rid : string) (opt : dict) :
  In c1 (chromosomes (header self)) -> In c2 (chromosomes (header self)) ->
  positive_int p1 -> positive_int p2 ->
  (forall k, In k (keys opt) -> In k (columns (header self))) ->
  NoDup (keys opt) ->
  exists (self' : PairsLine) (a : string) (pa : value) (sa : string)
         (b : string) (pb : value) (sb : string),
    add c1 p1 c2 p2 s1 s2 rid opt self = (Ok tt, self') /\
    ((a, pa, sa, (b, pb, sb)) = (c1, p1, s1, (c2, p2, s2)) \/
     (a, pa, sa, (b, pb, sb)) = (c2, p2, s2, (c1, p1, s1))) /\
    forall out, exists out',
      printline self' out = (Ok tt, out') /\
      content out' =
      (content out
       ++ tsv ([rid; a; str pa; b; str pb; sa; sb]
               ++ (if (7 <? length (columns (header self)))%nat
                   then map snd opt else []))
       ++ nl)%string.
Proof.
  intros H1 H2 H3 H4 Hk Hnd.
  pose proof (add_accepted self c1 p1 c2 p2 s1 s2 rid opt H1 H2 H3 H4 Hk) as Hadd.
  rewrite merged_new in Hadd by (auto; intros k _ []). cbn [app] in Hadd.
  assert (Hline : forall a pa sa b pb sb out, exists out',
    printline (mkPairsLine (header self) (Some rid) (Some opt) (Some a) (Some b)
                 (Some pa) (Some pb) (Some sa) (Some sb)) out = (Ok tt, out') /\
    content out' =
    (content out
     ++ tsv ([rid; a; str pa; b; str pb; sa; sb]
             ++ (if (7 <? length (columns (header self)))%nat
                 then map snd opt else []))
     ++ nl)%string).
  { intros a pa sa b pb sb out. eexists. split; [now apply printline_complete|].
    rewrite !content_app, tsv_app.
    destruct (7 <? length (columns (header self)))%nat.
    - rewrite map_map. unfold content at 2 4. cbn [String.concat].
      now rewrite !append_assoc.
    - unfold content at 2 3 4. cbn [String.concat map].
      now rewrite !append_assoc. }
  destruct (exchanges (shape (header self)) c1 p1 c2 p2).
  - exists (mkPairsLine (header self) (Some rid) (Some opt) (Some c2) (Some c1)
              (Some p2) (Some p1) (Some s2) (Some s1)), c2, p2, s2, c1, p1, s1.
    split; [exact Hadd|]. split; [now right | intros out; apply Hline].
  - exists (mkPairsLine (header self) (Some rid) (Some opt) (Some c1) (Some c2)
              (Some p1) (Some p2) (Some s1) (Some s2)), c1, p1, s1, c2, p2, s2.
    split; [exact Hadd|]. split; [now left | intros out; apply Hline].
Qed.

Lemma printline_after_add_witness :
  exists (self' : PairsLine) (a : string) (pa : value) (sa : string)
         (b : string) (pb : value) (sb : string),
    add "chr2" (PyInt 4000) "chr1" (PyInt 5000) "+" "-" "read1"
      [("mismatch", "G>C")] (PairsLine_init Demo.hdr) = (Ok tt, self') /\
    ((a, pa, sa, (b, pb, sb))
       = ("chr2", PyInt 4000, "+", ("chr1", PyInt 5000, "-")) \/
     (a, pa, sa, (b, pb, sb))
       = ("chr1", PyInt 5000, "-", ("chr2", PyInt 4000, "+"))) /\
    forall out, exists out',
      printline self' out = (Ok tt, out') /\
      content out' =
      (content out
       ++ tsv (["read1"; a; str pa; b; str pb; sa; sb]
               ++ (if (7 <? length (columns Demo.hdr))%nat
                   then map snd [("mismatch", "G>C")] else []))
       ++ nl)%string.
Proof.
  apply (printline_after_add (PairsLine_init Demo.hdr) "chr2" (PyInt 4000)
           "chr1" (PyInt 5000) "+" "-" "read1" [("mismatch", "G>C")]).
  - simpl. tauto.
  - simpl. tauto.
  - split; reflexivity.
  - split; reflexivity.
  - intros k [<-|[]]. simpl. tauto.
  - repeat constructor. simpl. tauto.
Defined.

(** X6: before the first [add] that returns normally there is no line to
    write: on an object fresh from the constructor, and on one whose first
    [add] raised, [printline] raises [AttributeError] and writes nothing. *)
Theorem printline_before_add (h : PairsHeader) (out : sink) :
  printline (PairsLine_init h) out = (Raise AttributeError, out)
  /\
  (forall c1 p1 c2 p2 s1 s2 rid opt e,
     fst (add c1 p1 c2 p2 s1 s2 rid opt (PairsLine_init h)) = Raise e ->
     printline (snd (add c1 p1 c2 p2 s1 s2 rid opt (PairsLine_init h))) out
     = (Raise AttributeError, out)).
Proof.
  split; [reflexivity|].
  intros c1 p1 c2 p2 s1 s2 rid opt e He.
  pose proof (add_raise_frame _ _ _ _ _ _ _ _ _ e He) as Hm.
  destruct Hm as (_ & Hc1 & _).
  cbn [PairsLine_init chr1] in Hc1.
  unfold printline. step. rewrite Hc1.
  destruct (readID (snd (add c1 p1 c2 p2 s1 s2 rid opt (PairsLine_init h))));
    reflexivity.
Qed.

Lemma printline_before_add_witness :
  printline (snd (Demo.add_unknown_column (PairsLine_init Demo.hdr))) []
  = (Raise AttributeError, []).
Proof.
  apply (proj2 (printline_before_add Demo.hdr []) "chr1" (PyInt 1000) "chr2"
           (PyInt 3000) default_strand default_strand "read7"
           [("quality", "60")] AssertionError).
  reflexivity.
Defined.

(* ===================================================================== *)
(** ** Further properties of add and add_optional *)
(* ===================================================================== *)

(** [add] returns normally or raises [AssertionError]. *)
Lemma add_outcome (self : PairsLine) (c1 : string) (p1 : value) (c2 : string)
    (p2 : value) (s1 s2 rid : string) (opt : dict) :
  (In c1 (chromosomes (header self)) /\ In c2 (chromosomes (header self)) /\
   positive_int p1 /\ positive_int p2 /\
   (forall k, In k (keys opt) -> In k (columns (header self)))) \/
  ((~ In c1 (chromosomes (header self)) \/ ~ In c2 (chromosomes (header self)) \/
    ~ positive_int p1 \/ ~ positive_int p2) /\
   add c1 p1 c2 p2 s1 s2 rid opt self = (Raise AssertionError, self)) \/
  (In c1 (chromosomes (header self)) /\ In c2 (chromosomes (header self)) /\
   positive_int p1 /\ positive_int p2 /\
   (exists k, In k (keys opt) /\ ~ In k (columns (header self))) /\
   fst (add c1 p1 c2 p2 s1 s2 rid opt self) = Raise AssertionError).
Proof.
  assert (Hdec : forall p, positive_int p \/ ~ positive_int p).
  { intros p. rewrite <- positive_int_test.
    destruct (isinstance_int p && int_gt p (PyInt 0)); auto. }
  destruct (in_dec string_dec c1 (chromosomes (header self))) as [H1|H1];
    [|right; left; split; [|apply add_rejected]; auto].
  destruct (in_dec string_dec c2 (chromosomes (header self))) as [H2|H2];
    [|right; left; split; [|apply add_rejected]; auto].
  destruct (Hdec p1) as [H3|H3];
    [|right; left; split; [|apply add_rejected]; auto].
  destruct (Hdec p2) as [H4|H4];
    [|right; left; split; [|apply add_rejected]; auto].
  destruct (in_columns_dec opt (columns (header self))) as [Hk|Hk]; [tauto|].
  right; right.
  refine (conj H1 (conj H2 (conj H3 (conj H4 (conj Hk _))))).
  now apply add_optional_refused.
Qed.

(** X7: [add] overwrites the whole record: on two objects with the same
    header the same call has the same outcome, and when it returns normally
    it leaves the same record, whatever the objects held before. *)
Theorem add_overwrites (self1 self2 : PairsLine) (c1 : string) (p1 : value)
    (c2 : string) (p2 : value) (s1 s2 rid : string) (opt : dict) :
  header self1 = header self2 ->
  fst (add c1 p1 c2 p2 s1 s2 rid opt self1)
    = fst (add c1 p1 c2 p2 s1 s2 rid opt self2)
  /\
  (fst (add c1 p1 c2 p2 s1 s2 rid opt self1) = Ok tt ->
   snd (add c1 p1 c2 p2 s1 s2 rid opt self1)
     = snd (add c1 p1 c2 p2 s1 s2 rid opt self2)).
Proof.
  intros Hh.
  destruct (add_outcome self1 c1 p1 c2 p2 s1 s2 rid opt)
    as [(H1 & H2 & H3 & H4 & Hk)|[[Hbad Hr]|(H1 & H2 & H3 & H4 & Hk & Hr)]].
  - rewrite (add_accepted self1) by auto.
    rewrite Hh in H1, H2, Hk. rewrite (add_accepted self2) by auto.
    rewrite Hh. split; reflexivity.
  - rewrite Hr. rewrite Hh in Hbad. rewrite (add_rejected self2) by exact Hbad.
    split; [reflexivity | discriminate].
  - rewrite Hr. rewrite Hh in H1, H2, Hk.
    rewrite (add_optional_refused self2) by auto.
    split; [reflexivity | discriminate].
Qed.

Lemma add_overwrites_witness :
  fst (Demo.add_first (PairsLine_init Demo.hdr)) = fst (Demo.add_first Demo.line2)
  /\ (fst (Demo.add_first (PairsLine_init Demo.hdr)) = Ok tt ->
      snd (Demo.add_first (PairsLine_init Demo.hdr))
        = snd (Demo.add_first Demo.line2)).
Proof.
  apply (add_overwrites (PairsLine_init Demo.hdr) Demo.line2 "chr1" (PyInt 1000)
           "chr2" (PyInt 3000) default_strand default_strand default_readID []).
  reflexivity.
Defined.

(** X8: on a record that has its optional mapping, with distinct keys,
    [add_optional] merges: when every key of the argument is a column of the
    header it returns normally and changes the optional mapping only; in the
    optional mapping of the record afterwards the keys it had keep their
    places, the keys of the argument it did not have follow them, and no key
    occurs twice; every entry of the argument is found in it with the
    argument's value, and a key that is not in the argument keeps the value
    it had. *)
Theorem add_optional_merges (self : PairsLine) (d kvs : dict) :
  optional self = Some d -> NoDup (keys d) -> NoDup (keys kvs) ->
  (forall k, In k (keys kvs) -> In k (columns (header self))) ->
  exists d' new,
    fst (add_optional kvs self) = Ok tt /\
    optional (snd (add_optional kvs self)) = Some d' /\
    same_mates (snd (add_optional kvs self)) self /\
    readID (snd (add_optional kvs self)) = readID self /\
    keys d' = keys d ++ new /\ NoDup (keys d') /\
    (forall k, In k new <-> In k (keys kvs) /\ ~ In k (keys d)) /\
    (forall k v, In (k, v) kvs -> lookup k d' = Some v) /\
    (forall k, ~ In k (keys kvs) -> lookup k d' = lookup k d).
Proof.
  intros Hopt Hnd Hndk Hk.
  destruct (keys_merged kvs d Hnd) as (new & Hkeys & Hnd' & Hsub & Hall).
  pose proof (add_optional_ok kvs self d Hopt Hk) as Heq.
  destruct (add_optional_frame kvs self) as [Hm Hr].
  exists (merged kvs d), new.
  split; [now rewrite Heq|]. split; [now rewrite Heq|].
  split; [exact Hm|]. split; [exact Hr|].
  split; [exact Hkeys|]. split; [now rewrite Hkeys|].
  split; [|split].
  - intros k. split.
    + intros Hin. split; [now apply Hsub|].
      intros Hd. apply NoDup_app_remove_l in Hnd' as Hnew.
      clear - Hnd' Hin Hd.
      induction (keys d) as [|x l IH]; [destruct Hd|].
      rewrite <- app_comm_cons in Hnd'. inversion Hnd' as [|? ? Hx Hl]; subst.
      destruct Hd as [->|Hd]; [|now apply IH].
      apply Hx. apply in_or_app. now right.
    + intros [Hin Hnd0]. apply Hall in Hin.
      apply in_app_or in Hin as [Hin|Hin]; [contradiction | exact Hin].
  - intros k v Hin. now apply lookup_merged.
  - intros k Hnk. now apply lookup_merged_other.
Qed.

Lemma add_optional_merges_witness :
  exists d' new,
    fst (add_optional [("quality", "60"); ("mismatch", "none")]
           (mkPairsLine
              (mkPairsHeader "U" default_sorted ["chr1"] None
                 (reserved_columns ++ ["mismatch"; "quality"; "note"]) [])
              (Some ".") (Some [("note", "dup"); ("mismatch", "A>T")])
              None None None None None None)) = Ok tt /\
    optional (snd (add_optional [("quality", "60"); ("mismatch", "none")]
           (mkPairsLine
              (mkPairsHeader "U" default_sorted ["chr1"] None
                 (reserved_columns ++ ["mismatch"; "quality"; "note"]) [])
              (Some ".") (Some [("note", "dup"); ("mismatch", "A>T")])
              None None None None None None))) = Some d' /\
    keys d' = ["note"; "mismatch"] ++ new /\
    lookup "quality" d' = Some "60" /\ lookup "mismatch" d' = Some "none" /\
    lookup "note" d' = Some "dup".
Proof.
  destruct (add_optional_merges
              (mkPairsLine
                 (mkPairsHeader "U" default_sorted ["chr1"] None
                    (reserved_columns ++ ["mismatch"; "quality"; "note"]) [])
                 (Some ".") (Some [("note", "dup"); ("mismatch", "A>T")])
                 None None None None None None)
              [("note", "dup"); ("mismatch", "A>T")]
              [("quality", "60"); ("mismatch", "none")])
    as (d' & new & Hok & Hopt & _ & _ & Hkeys & _ & _ & Hin & Hout).
  - reflexivity.
  - repeat (constructor; [simpl; intuition discriminate|]). constructor.
  - repeat (constructor; [simpl; intuition discriminate|]). constructor.
  - intros k [<-|[<-|[]]]; simpl; tauto.
  - exists d', new.
    split; [exact Hok|]. split; [exact Hopt|]. split; [exact Hkeys|].
    split; [apply Hin; simpl; tauto|]. split; [apply Hin; simpl; tauto|].
    rewrite Hout; [reflexivity | simpl; intuition discriminate].
Defined.



(** The record [add] leaves when [add_optional] refuses a key. *)
Lemma add_optional_refused_state (self : PairsLine) (c1 : string) (p1 : value)
    (c2 : string) (p2 : value) (s1 s2 rid : string) (opt : dict) :
  In c1 (chromosomes (header self)) -> In c2 (chromosomes (header self)) ->
  positive_int p1 -> positive_int p2 ->
  (exists k, In k (keys opt) /\ ~ In k (columns (header self))) ->
  add c1 p1 c2 p2 s1 s2 rid opt self =
  (Raise AssertionError,
   snd (add_optional opt (set_optional [] (set_readID rid self)))).
Proof.
  intros H1 H2 H3 H4 Hk. unfold add. step.
  apply contains_In in H1, H2. apply positive_int_test in H3, H4.
  rewrite H1, H2, H3, H4. step.
  set (self1 := set_optional [] (set_readID rid self)).
  assert (Hlen : (0 <? length opt)%nat = true)
    by (destruct opt; [destruct Hk as (k & [] & _) | reflexivity]).
  rewrite Hlen.
  pose proof (add_optional_fail opt self1 [] eq_refl Hk) as Hr.
  destruct (add_optional opt self1) as [[u|e] self2]; simpl in Hr;
    [discriminate|]. injection Hr as ->. reflexivity.
Qed.

(** The tests of [add] with the mates given in the other order. *)
Lemma exchanges_sym (sh c1 c2 : string) (p1 p2 : value) :
  sh = "U" \/ sh = "L" -> c1 <> c2 ->
  exchanges sh c2 p2 c1 p1 = negb (exchanges sh c1 p1 c2 p2).
Proof.
  intros Hsh Hne. unfold exchanges, str_gt.
  assert (Hn1 : (c1 =? c2)%string = false) by now apply String.eqb_neq.
  assert (Hn2 : (c2 =? c1)%string = false)
    by (apply String.eqb_neq; congruence).
  rewrite Hn1, Hn2. cbn [andb]. rewrite !orb_false_r.
  fold (str_lt c1 c2). fold (str_lt c2 c1).
  assert (Hx : str_lt c1 c2 = negb (str_lt c2 c1)).
  { destruct (str_lt c1 c2) eqn:E1, (str_lt c2 c1) eqn:E2; auto.
    - apply str_lt_asym in E1. congruence.
    - exfalso. apply Hne. now apply str_lt_connex. }
  destruct Hsh as [-> | ->]; cbn; rewrite ?orb_false_r, Hx;
    now destruct (str_lt c2 c1).
Qed.

(** X10: on a header of shape ['U'] or ['L'], with the two mates on
    different chromosomes, [add] does not depend on which mate is given
    first: the call with the mates exchanged has the same outcome and leaves
    the same record. *)
Theorem add_mate_order_irrelevant (self : PairsLine) (c1 : string) (p1 : value)
    (c2 : string) (p2 : value) (s1 s2 rid : string) (opt : dict) :
  shape (header self) = "U" \/ shape (header self) = "L" ->
  c1 <> c2 ->
  add c2 p2 c1 p1 s2 s1 rid opt self = add c1 p1 c2 p2 s1 s2 rid opt self.
Proof.
  intros Hsh Hne.
  destruct (add_outcome self c1 p1 c2 p2 s1 s2 rid opt)
    as [(H1 & H2 & H3 & H4 & Hk)|[[Hbad Hr]|(H1 & H2 & H3 & H4 & Hk & _)]].
  - rewrite !add_accepted by auto.
    rewrite (exchanges_sym _ c1 c2 p1 p2) by auto.
    now destruct (exchanges (shape (header self)) c1 p1 c2 p2).
  - rewrite Hr. apply add_rejected. tauto.
  - now rewrite !add_optional_refused_state by auto.
Qed.

Lemma add_mate_order_irrelevant_witness :
  add "chr2" (PyInt 3000) "chr1" (PyInt 1000) "-" "+" "read1" []
    (PairsLine_init Demo.hdr)
  = add "chr1" (PyInt 1000) "chr2" (PyInt 3000) "+" "-" "read1" []
      (PairsLine_init Demo.hdr).
Proof.
  apply (add_mate_order_irrelevant (PairsLine_init Demo.hdr) "chr1" (PyInt 1000)
           "chr2" (PyInt 3000) "+" "-" "read1" []).
  - now left.
  - discriminate.
Defined.

(** X11: passing the optional mapping to [add] is the same as calling [add]
    without it and then [add_optional], when every key of the mapping is a
    column of the header. *)
Theorem add_then_add_optional (self : PairsLine) (c1 : string) (p1 : value)
    (c2 : string) (p2 : value) (s1 s2 rid : string) (opt : dict) :
  (forall k, In k (keys opt) -> In k (columns (header self))) ->
  add c1 p1 c2 p2 s1 s2 rid opt self
  = (add c1 p1 c2 p2 s1 s2 rid [] ;; add_optional opt) self.
Proof.
  intros Hk.
  destruct (add_outcome self c1 p1 c2 p2 s1 s2 rid opt)
    as [(H1 & H2 & H3 & H4 & _)|[[Hbad Hr]|(_ & _ & _ & _ & (k & Hin & Hnk) & _)]].
  - step. rewrite !add_accepted by (auto; intros k []).
    destruct (exchanges (shape (header self)) c1 p1 c2 p2);
      now rewrite (add_optional_ok opt _ (merged [] [])).
  - step. rewrite Hr, add_rejected by exact Hbad. reflexivity.
  - exfalso. exact (Hnk (Hk k Hin)).
Qed.

Lemma add_then_add_optional_witness :
  add "chr1" (PyInt 1000) "chr2" (PyInt 3000) "." "." "."
    [("mismatch", "chr1:1070:A>T")] (PairsLine_init Demo.hdr)
  = (Demo.add_first ;; Demo.add_mismatch) (PairsLine_init Demo.hdr).
Proof.
  apply (add_then_add_optional (PairsLine_init Demo.hdr) "chr1" (PyInt 1000)
           "chr2" (PyInt 3000) "." "." "." [("mismatch", "chr1:1070:A>T")]).
  intros k [<-|[]]. simpl. tauto.
Defined.

Lemma add_orders_distinct_chromosomes_witness :
  exists (self' : PairsLine) (a : string) (pa : value) (b : string) (pb : value),
    add "chr2" (PyInt 3000) "chr1" (PyInt 1000) "-" "+" "read1" []
      (PairsLine_init Demo.hdr) = (Ok tt, self') /\
    chr1 self' = Some a /\ pos1 self' = Some pa /\
    chr2 self' = Some b /\ pos2 self' = Some pb /\
    ("U" = "U" -> locus_le Demo.hdr a pa b pb = true) /\
    ("U" = "L" -> locus_le Demo.hdr b pb a pa = true).
Proof.
  apply (add_orders_distinct_chromosomes (Some ["chr1"; "chr2"]) "U"
           default_sorted (Some "hg19") ["mismatch"] []
           (PairsLine_init Demo.hdr) "chr2" (PyInt 3000) "chr1" (PyInt 1000)
           "-" "+" "read1" []).
  - reflexivity.
  - simpl. tauto.
  - simpl. tauto.
  - discriminate.
  - split; reflexivity.
  - split; reflexivity.
  - intros k [].
Defined.

Lemma add_same_chromosome_exchanges_witness :
  add "chr2" (PyInt 4000) "chr2" (PyInt 5000) "+" "-" "read1" []
    (PairsLine_init Demo.lower_hdr)
  = (Ok tt,
     mkPairsLine Demo.lower_hdr (Some "read1") (Some [])
       (Some "chr2") (Some "chr2") (Some (PyInt 5000)) (Some (PyInt 4000))
       (Some "-") (Some "+")).
Proof.
  apply (add_same_chromosome_exchanges (PairsLine_init Demo.lower_hdr) "chr2"
           (PyInt 4000) (PyInt 5000) "+" "-" "read1" []).
  - simpl. tauto.
  - split; reflexivity.
  - split; reflexivity.
  - discriminate.
  - intros k [].
Defined.

(** X13: on a header the constructor builds, the comparison of chromosome
    names [add] makes agrees with their places in the header's list: for two
    names of the list, [chr1 > chr2] holds exactly when [chr1] stands after
    [chr2] in it. *)
Theorem comparison_agrees_with_rank (ch : option (list string)) (sh so : string)
    (ga : option string) (ac : list string) (al : dict) (h : PairsHeader)
    (c1 c2 : string) :
  PairsHeader_init ch sh so ga ac al = Ok h ->
  In c1 (chromosomes h) -> In c2 (chromosomes h) ->
  (str_gt c1 c2 = true <->
   exists i j, rank c1 (chromosomes h) = Some i /\
               rank c2 (chromosomes h) = Some j /\ (j < i)%nat).
Proof.
  intros Hinit H1 H2.
  destruct (init_strongly_sorted _ _ _ _ _ _ _ Hinit) as [Hs _].
  change (str_gt c1 c2) with (str_lt c2 c1).
  split.
  - intros Hlt. destruct (rank_lt _ c2 c1 Hs H2 H1 Hlt) as (j & i & Hj & Hi & Hji).
    now exists i, j.
  - intros (i & j & Hi & Hj & Hji).
    destruct (str_lt c2 c1) eqn:E21; [reflexivity|]. exfalso.
    destruct (str_lt c1 c2) eqn:E12.
    + destruct (rank_lt _ c1 c2 Hs H1 H2 E12) as (i' & j' & Hi' & Hj' & Hij).
      rewrite Hi in Hi'. rewrite Hj in Hj'.
      injection Hi' as <-. injection Hj' as <-. lia.
    + assert (c1 = c2) by now apply str_lt_connex. subst.
      rewrite Hi in Hj. injection Hj as <-. lia.
Qed.

Lemma comparison_agrees_with_rank_witness :
  str_gt "chr2" "chr10" = true <->
  exists i j, rank "chr2" ["chr1"; "chr10"; "chr2"] = Some i /\
              rank "chr10" ["chr1"; "chr10"; "chr2"] = Some j /\ (j < i)%nat.
Proof.
  apply (comparison_agrees_with_rank (Some ["chr1"; "chr2"; "chr10"]) "U"
           default_sorted None [] []
           (mkPairsHeader "U" default_sorted ["chr1"; "chr10"; "chr2"] None
              reserved_columns []) "chr2" "chr10").
  - reflexivity.
  - simpl. tauto.
  - simpl. tauto.
Defined.

(** X16: neither [add] nor [add_optional] ever changes the header of the
    object, whatever the outcome of the call; and [add_optional] changes
    nothing but the optional mapping. *)
Theorem header_never_changed (self : PairsLine) :
  (forall c1 p1 c2 p2 s1 s2 rid opt,
     header (snd (add c1 p1 c2 p2 s1 s2 rid opt self)) = header self)
  /\
  (forall kvs,
     header (snd (add_optional kvs self)) = header self /\
     readID (snd (add_optional kvs self)) = readID self /\
     chr1 (snd (add_optional kvs self)) = chr1 self /\
     pos1 (snd (add_optional kvs self)) = pos1 self /\
     strand1 (snd (add_optional kvs self)) = strand1 self /\
     chr2 (snd (add_optional kvs self)) = chr2 self /\
     pos2 (snd (add_optional kvs self)) = pos2 self /\
     strand2 (snd (add_optional kvs self)) = strand2 self).
Proof.
  split.
  - intros c1 p1 c2 p2 s1 s2 rid opt.
    destruct (add_outcome self c1 p1 c2 p2 s1 s2 rid opt)
      as [(H1 & H2 & H3 & H4 & Hk)|[[Hbad Hr]|(H1 & H2 & H3 & H4 & Hk & Hr)]].
    + rewrite add_accepted by auto.
      now destruct (exchanges (shape (header self)) c1 p1 c2 p2).
    + now rewrite Hr.
    + apply (add_raise_frame _ _ _ _ _ _ _ _ _ _ Hr).
  - intros kvs. destruct (add_optional_frame kvs self) as [Hm Hr].
    unfold same_mates in Hm. tauto.
Qed.

(** [add_optional] keeps the optional mapping fitting the header, whatever
    its outcome. *)
Lemma add_optional_fits (kvs : dict) : forall self : PairsLine,
  (forall d, optional self = Some d -> fits_columns (header self) d) ->
  forall d, optional (snd (add_optional kvs self)) = Some d ->
            fits_columns (header self) d.
Proof.
  induction kvs as [|[k v] kvs IH]; intros self Hfit; [exact Hfit|].
  unfold add_optional in *. cbn [for_each]. step.
  destruct (contains k (columns (header self))) eqn:Hc; step; [|exact Hfit].
  destruct (optional self) as [d0|] eqn:Hopt; step; [|rewrite Hopt; exact Hfit].
  apply (IH (set_optional (update k v d0) self)).
  intros d [= <-]. destruct (Hfit d0 eq_refl) as [Hnd Hsub].
  apply contains_In in Hc. unfold fits_columns. rewrite keys_update. split.
  - destruct (contains k (keys d0)) eqn:E; [now rewrite app_nil_r|].
    apply contains_false in E. apply NoDup_app; auto.
    + repeat constructor. intros [].
    + intros a Ha [<-|[]]. contradiction.
  - intros k' Hin. apply in_app_or in Hin as [Hin|Hin]; [now apply Hsub|].
    destruct (contains k (keys d0)); [destruct Hin|].
    destruct Hin as [<-|[]]. exact Hc.
Qed.

(** X17: every record the program can reach fits its header: an object
    fresh from the constructor does, and [add] and [add_optional], whatever
    their outcome, leave a record in which the stored chromosomes are in the
    header's list, the stored positions are instances of [int] greater than
    zero, and the keys of the optional mapping are distinct columns of the
    header. *)
Theorem record_fits_header (self : PairsLine) :
  fits_header (PairsLine_init (header self))
  /\
  (fits_header self ->
   forall c1 p1 c2 p2 s1 s2 rid opt,
     fits_header (snd (add c1 p1 c2 p2 s1 s2 rid opt self)))
  /\
  (fits_header self ->
   forall kvs, fits_header (snd (add_optional kvs self))).
Proof.
  split; [|split].
  - unfold fits_header. cbn. repeat split; discriminate.
  - intros Hfit c1 p1 c2 p2 s1 s2 rid opt.
    destruct (add_outcome self c1 p1 c2 p2 s1 s2 rid opt)
      as [(H1 & H2 & H3 & H4 & Hk)|[[Hbad Hr]|(H1 & H2 & H3 & H4 & Hk & _)]].
    + rewrite add_accepted by auto.
      assert (Hd : fits_columns (header self) (merged opt [])).
      { destruct (keys_merged opt [] (NoDup_nil _)) as (new & Hkeys & Hnd & Hsub & _).
        split; [now rewrite Hkeys|].
        intros k. rewrite Hkeys. intros Hin. apply Hk, Hsub, Hin. }
      destruct (exchanges (shape (header self)) c1 p1 c2 p2);
        unfold fits_header; cbn [snd header chr1 chr2 pos1 pos2 optional];
        (split; [|split; [|split; [|split]]]); intros x [= <-]; assumption.
    + now rewrite Hr.
    + rewrite add_optional_refused_state by auto. cbn [snd].
      set (self1 := set_optional [] (set_readID rid self)).
      destruct (add_optional_frame opt self1) as [Hm _].
      destruct Hm as (Hh & E1 & E2 & _ & E3 & E4 & _).
      destruct Hfit as (F1 & F2 & F3 & F4 & _).
      unfold fits_header. rewrite Hh, E1, E2, E3, E4.
      cbn [self1 set_optional set_readID header chr1 chr2 pos1 pos2].
      refine (conj F1 (conj F2 (conj F3 (conj F4 _)))).
      apply (add_optional_fits opt self1).
      intros d [= <-]. split; [constructor | intros k []].
  - intros Hfit kvs.
    destruct (add_optional_frame kvs self) as [Hm _].
    destruct Hm as (Hh & E1 & E2 & _ & E3 & E4 & _).
    destruct Hfit as (F1 & F2 & F3 & F4 & F5).
    unfold fits_header. rewrite Hh, E1, E2, E3, E4.
    refine (conj F1 (conj F2 (conj F3 (conj F4 _)))).
    now apply add_optional_fits.
Qed.

Lemma record_fits_header_witness :
  fits_header (snd (Demo.add_second Demo.line2))
  /\ fits_header (snd (add_optional [("mismatch", "A>T"); ("quality", "60")]
                         Demo.line2)).
Proof.
  pose proof (proj1 (record_fits_header (PairsLine_init Demo.hdr))) as H0.
  pose proof (proj1 (proj2 (record_fits_header (PairsLine_init Demo.hdr))) H0
                "chr1" (PyInt 1000) "chr2" (PyInt 3000) default_strand
                default_strand default_readID []) as H1.
  pose proof (proj2 (proj2 (record_fits_header Demo.line1)) H1
                [("mismatch", "chr1:1070:A>T")]) as H.
  split.
  - exact (proj1 (proj2 (record_fits_header Demo.line2)) H "chr2" (PyInt 4000)
             "chr2" (PyInt 5000) "+" "-" default_readID
             [("mismatch", "chr2:4916:G>C, chr2:5106:C>T")]).
  - exact (proj2 (proj2 (record_fits_header Demo.line2)) H
             [("mismatch", "A>T"); ("quality", "60")]).
Defined.
